(** * othell: telemetry bootstrap (pkg/othell/othell.go)

    A shallow embedding of the package.  The package is glue around the
    OpenTelemetry SDK, [log/slog] and the GCE metadata client; each of those
    packages is represented by a module holding only the data the package
    passes to it and reads back.  Mutation of the process-wide defaults is
    written as explicit state passing over [Process]. *)

From Stdlib Require Import Strings.String Strings.Ascii Strings.Byte List ZArith NArith Bool Lia.
From Stdlib Require Import Permutation.
Import ListNotations.
Open Scope string_scope.
Set Warnings "-register-all".

(** ** Go values shared by all packages *)

(** [error]: the three ways this package obtains an error value. *)
Inductive error : Type :=
| errorString (msg : string)              (* errors.New, fmt.Errorf without %w, library errors *)
| wrapError (format : string) (err : error) (* fmt.Errorf(format, err) with one %w verb *)
| joinError (errs : list error).          (* errors.Join(errs...) *)

(** A call that returns [(T, error)]. *)
Inductive result (T : Type) : Type :=
| Ok (v : T)
| Err (err : error).
Arguments Ok {T} v.
Arguments Err {T} err.

(** A call that either returns or panics. *)
Inductive outcome (T : Type) : Type :=
| Return (v : T)
| Panic.
Arguments Return {T} v.
Arguments Panic {T}.

(** encoding/hex: [EncodeToString], two lower-case digits per byte. *)
Module hex.

Definition hextable : string := "0123456789abcdef".

Definition digit (n : N) : ascii :=
  match String.get (N.to_nat n) hextable with
  | Some c => c
  | None => "0"%char
  end.

Fixpoint EncodeToString (src : list byte) : string :=
  match src with
  | [] => EmptyString
  | v :: rest =>
      String (digit (N.shiftr (Byte.to_N v) 4))
        (String (digit (N.land (Byte.to_N v) 15)) (EncodeToString rest))
  end.

End hex.

(** ** go.opentelemetry.io/otel/sdk/resource *)
Module resource.

Record Resource : Type := {
  Attributes : list (string * string);
  SchemaURL : string
}.

(** The resource a provider ends up with.  The SDK does not keep the pointer
    [WithResource] is given: it keeps [resource.Merge(resource.Environment(), r)],
    and [resource.Default()] when no such option is passed.  What those calls
    compute from OTEL_RESOURCE_ATTRIBUTES, OTEL_SERVICE_NAME and the attribute
    sets is the library's business and is left uninterpreted. *)
Inductive Stored : Type :=
| Default
| MergeEnvironment (r : option Resource).

End resource.

(** ** go.opentelemetry.io/otel/trace *)
Module trace.

(** [TraceID] is a [[16]byte], [SpanID] a [[8]byte], [TraceFlags] a byte. *)
Definition TraceID : Type := list byte.
Definition SpanID : Type := list byte.
Definition TraceFlags : Type := Z.

Definition FlagsSampled : TraceFlags := 1%Z.

Definition allZero (b : list byte) : bool := forallb (Byte.eqb x00) b.

Definition TraceID_IsValid (t : TraceID) : bool := negb (allZero t).
Definition SpanID_IsValid (s : SpanID) : bool := negb (allZero s).

(** [TraceID.String], what the %s verb prints for a trace id. *)
Definition TraceID_String (t : TraceID) : string := hex.EncodeToString t.

Definition IsSampled (tf : TraceFlags) : bool :=
  (Z.land tf FlagsSampled =? FlagsSampled)%Z.

Record SpanContext : Type := {
  traceID : TraceID;
  spanID : SpanID;
  traceFlags : TraceFlags;
  traceState : string;
  remote : bool
}.

(** The zero value [SpanContext{}], carried by the no-op span. *)
Definition emptySpanContext : SpanContext :=
  {| traceID := repeat x00 16; spanID := repeat x00 8; traceFlags := 0%Z;
     traceState := ""; remote := false |}.

Definition IsValid (sc : SpanContext) : bool :=
  TraceID_IsValid (traceID sc) && SpanID_IsValid (spanID sc).

End trace.

(** ** context *)
Module context.

(** The only thing this package reads from a [context.Context] is the span
    stored in it, if any. *)
Record Context : Type := { currentSpan : option trace.SpanContext }.

Definition Background : Context := {| currentSpan := None |}.

End context.

(** [trace.SpanContextFromContext]: the span context of the span in [ctx], the
    empty one when [ctx] carries no span. *)
Definition SpanContextFromContext (ctx : context.Context) : trace.SpanContext :=
  match context.currentSpan ctx with
  | Some sc => sc
  | None => trace.emptySpanContext
  end.

(** ** log/slog *)
Module slog.

(** [type Level int]. *)
Definition Level : Type := Z.
Definition LevelDebug : Level := (-4)%Z.
Definition LevelInfo : Level := 0%Z.
Definition LevelWarn : Level := 4%Z.
Definition LevelError : Level := 8%Z.

Definition TimeKey : string := "time".
Definition LevelKey : string := "level".
Definition MessageKey : string := "msg".

(** A Go interface value of type [any]: the dynamic type and the value.
    Only the dynamic types that can reach this package are told apart. *)
Inductive any : Type :=
| any_string (s : string)
| any_int64 (i : Z)
| any_uint64 (u : Z)
| any_float64 (bits : Z)
| any_bool (b : bool)
| any_Duration (d : Z)
| any_Time (t : Z)
| any_Level (l : Level)
| any_SpanID (s : trace.SpanID)
| any_other (type : string) (repr : string).

(** [slog.Value], one constructor per Kind.  Group and LogValuer values are
    left out: a handler resolves and flattens them before it calls
    ReplaceAttr, and this package never builds one. *)
Inductive Value : Type :=
| StringValue (s : string)
| Int64Value (i : Z)
| Uint64Value (u : Z)
| Float64Value (bits : Z)
| BoolValue (b : bool)
| DurationValue (d : Z)
| TimeValue (t : Z)
| KindAny (a : any).

(** [Value.Any]. *)
Definition Any_ (v : Value) : any :=
  match v with
  | StringValue s => any_string s
  | Int64Value i => any_int64 i
  | Uint64Value u => any_uint64 u
  | Float64Value b => any_float64 b
  | BoolValue b => any_bool b
  | DurationValue d => any_Duration d
  | TimeValue t => any_Time t
  | KindAny a => a
  end.

(** [slog.AnyValue]: a type switch on the basic types, everything else is
    boxed under KindAny. *)
Definition AnyValue (v : any) : Value :=
  match v with
  | any_string s => StringValue s
  | any_int64 i => Int64Value i
  | any_uint64 u => Uint64Value u
  | any_float64 b => Float64Value b
  | any_bool b => BoolValue b
  | any_Duration d => DurationValue d
  | any_Time t => TimeValue t
  | any_Level _ | any_SpanID _ | any_other _ _ => KindAny v
  end.

Record Attr : Type := { Key : string; Val : Value }.

(** [slog.Any(key, v)] and [slog.Bool(key, b)]. *)
Definition Any (key : string) (v : any) : Attr := {| Key := key; Val := AnyValue v |}.
Definition Bool (key : string) (b : bool) : Attr := {| Key := key; Val := BoolValue b |}.

(** [slog.String(key, value)]. *)
Definition String_ (key value : string) : Attr :=
  {| Key := key; Val := StringValue value |}.

(** *** Records and the memory their copies share

    A [Record] keeps its first [nAttrsInline] attributes in an array of its
    own and the others in a slice.  Copying a Record copies the array but
    not the slice's backing array: that one is shared between the copies.
    The backing arrays live in a [Heap]; a cell is [None] while it holds the
    zero Attr. *)
Definition nAttrsInline : nat := 5.

Definition Array : Type := list (option Attr).
Definition Heap : Type := list Array.

Record Slice : Type := { ptr : option nat; len : nat; cap : nat }.

Definition nilSlice : Slice := {| ptr := None; len := 0; cap := 0 |}.

Definition array (h : Heap) (s : Slice) : Array :=
  match ptr s with
  | Some a => nth a h []
  | None => []
  end.

(** The cell [s[:i+1][i]]. *)
Definition cell (h : Heap) (s : Slice) (i : nat) : option Attr :=
  nth i (array h s) None.

Definition present (c : option Attr) : list Attr :=
  match c with
  | Some a => [a]
  | None => []
  end.

(** The elements [s[0:len(s)]]; a zero Attr is one every handler ignores. *)
Definition items (h : Heap) (s : Slice) : list Attr :=
  flat_map present (firstn (len s) (array h s)).

Definition store (h : Heap) (a i : nat) (c : option Attr) : Heap :=
  (firstn a h
     ++ match skipn a h with
        | arr :: rest => (firstn i arr ++ c :: skipn (S i) arr) :: rest
        | [] => []
        end)%list.

Record Record_ : Type := {
  Time : Z;
  Message : string;
  Level_ : Level;
  PC : Z;
  front : list Attr;   (* front[:nFront] *)
  back : Slice
}.

(** [Record.Attrs]: the inline attributes, then the slice. *)
Definition Attrs (h : Heap) (r : Record_) : list Attr :=
  (front r ++ items h (back r))%list.

(** The slice operations take [extra], the capacity the allocator hands out
    beyond the length asked for, from the old capacity and that length. *)
Section Alloc.

Variable extra : nat -> nat -> nat.

(** The built-in [append(s, a)]: in place while there is capacity, into a
    new array otherwise. *)
Definition appendAttr (h : Heap) (s : Slice) (a : Attr) : Slice * Heap :=
  let grown :=
    let newcap := S (len s) + extra (cap s) (S (len s)) in
    ({| ptr := Some (length h); len := S (len s); cap := newcap |},
     (h ++ [firstn (len s) (array h s)
              ++ Some a :: repeat None (newcap - S (len s))])%list) in
  match ptr s with
  | Some p =>
      if (len s <? cap s)%nat
      then ({| ptr := Some p; len := S (len s); cap := cap s |},
            store h p (len s) (Some a))
      else grown
  | None => grown
  end.

(** [slices.Clip(s)]. *)
Definition Clip (s : Slice) : Slice :=
  {| ptr := ptr s; len := len s; cap := len s |}.

(** [slices.Grow(s, n)]: room for [n] more elements; a new array, holding
    the old one through its capacity, when there is not. *)
Definition Grow (h : Heap) (s : Slice) (n : nat) : Slice * Heap :=
  if (n <=? cap s - len s)%nat then (s, h)
  else
    let n' := n - (cap s - len s) in
    let newcap := cap s + n' + extra (cap s) (cap s + n') in
    ({| ptr := Some (length h); len := len s; cap := newcap |},
     (h ++ [firstn (cap s) (array h s) ++ repeat None (newcap - cap s)])%list).

(** [Record.AddAttrs] (Go 1.22 and later; Go 1.21 panics where this one
    appends the "!BUG" attribute).  There are no group values here, so no
    attribute is skipped as an empty group. *)
Definition AddAttrs (r : Record_) (attrs : list Attr) (h : Heap) : Record_ * Heap :=
  let room := nAttrsInline - length (front r) in
  let front' := (front r ++ firstn room attrs)%list in
  let rest := skipn room attrs in
  let '(back1, h1) :=
    if (len (back r) <? cap (back r))%nat then
      match cell h (back r) (len (back r)) with
      | Some _ =>
          appendAttr h (Clip (back r))
            (String_ "!BUG"
               "AddAttrs unsafely called on copy of Record made without using Record.Clone")
      | None => (back r, h)
      end
    else (back r, h) in
  let '(back2, h2) := Grow h1 back1 (length rest) in
  let '(back3, h3) :=
    fold_left (fun sh a => appendAttr (snd sh) (fst sh) a) rest (back2, h2) in
  ({| Time := Time r; Message := Message r; Level_ := Level_ r; PC := PC r;
      front := front'; back := back3 |}, h3).

End Alloc.

(** The slice stays within its backing array. *)
Definition wfSlice (h : Heap) (s : Slice) : Prop :=
  (len s <= cap s)%nat /\ (cap s <= length (array h s))%nat.

(** No cell between the length and the capacity has been written. *)
Definition unwritten (h : Heap) (s : Slice) : Prop :=
  forall i, (len s <= i)%nat -> (i < cap s)%nat -> cell h s i = None.

(** A record as the package builds them: the slice is used only once the
    inline array is full. *)
Definition wfRecord (h : Heap) (r : Record_) : Prop :=
  (length (front r) <= nAttrsInline)%nat
  /\ ((length (front r) < nAttrsInline)%nat -> len (back r) = 0)
  /\ wfSlice h (back r).

(** [slog.HandlerOptions]; the Level field is left at its zero value by
    this package and is not represented. *)
Record HandlerOptions : Type := {
  AddSource : bool;
  ReplaceAttr : option (list string -> Attr -> outcome Attr)
}.

(** The type assertion [x.(slog.Level)] in its one-result form. *)
Definition assertLevel (x : any) : outcome Level :=
  match x with
  | any_Level l => Return l
  | _ => Panic
  end.

End slog.

(** ** os *)
Inductive File : Type := Stdout | Stderr.

(** ** go.opentelemetry.io/otel/exporters/stdout/stdouttrace *)
Module stdouttrace.

Inductive Option_ : Type := WithPrettyPrint | WithoutTimestamps.

Record Exporter : Type := { PrettyPrint : bool; Timestamps : bool; Writer : File }.

Definition applyOption (e : Exporter) (opt : Option_) : Exporter :=
  match opt with
  | WithPrettyPrint =>
      {| PrettyPrint := true; Timestamps := Timestamps e; Writer := Writer e |}
  | WithoutTimestamps =>
      {| PrettyPrint := PrettyPrint e; Timestamps := false; Writer := Writer e |}
  end.

(** [stdouttrace.New(options...)]; [failure] is the error the call reports,
    if any. *)
Definition New (failure : option error) (options : list Option_) : result Exporter :=
  match failure with
  | Some err => Err err
  | None =>
      Ok (fold_left applyOption options
            {| PrettyPrint := false; Timestamps := true; Writer := Stdout |})
  end.

End stdouttrace.

(** ** go.opentelemetry.io/otel/sdk/trace *)
Module sdktrace.

(** The [SpanExporter] interface: whatever autoexport selected, or the
    stdout exporter. *)
Inductive SpanExporter : Type :=
| detected (name : string)
| console (e : stdouttrace.Exporter).

Inductive SpanProcessor : Type :=
| NewBatchSpanProcessor (e : SpanExporter)
| NewSimpleSpanProcessor (e : SpanExporter).

Inductive Sampler : Type :=
| AlwaysSample
| ParentBasedAlwaysSample.   (* the SDK default *)

Inductive TracerProviderOption : Type :=
| WithSampler (s : Sampler)
| WithSpanProcessor (sp : SpanProcessor)
| WithResource (r : option resource.Resource).

Record TracerProvider : Type := {
  sampler : Sampler;
  spanProcessors : list SpanProcessor;
  res : resource.Stored
}.

(** [WithSpanProcessor] registers one more processor; [WithResource(r)]
    stores [resource.Merge(resource.Environment(), r)], not [r]. *)
Definition applyOption (tp : TracerProvider) (opt : TracerProviderOption) : TracerProvider :=
  match opt with
  | WithSampler s =>
      {| sampler := s; spanProcessors := spanProcessors tp; res := res tp |}
  | WithSpanProcessor sp =>
      {| sampler := sampler tp; spanProcessors := spanProcessors tp ++ [sp]; res := res tp |}
  | WithResource r =>
      {| sampler := sampler tp; spanProcessors := spanProcessors tp;
         res := resource.MergeEnvironment r |}
  end.

(** [sdktrace.NewTracerProvider(opts...)]: the options are applied in
    order; span processors are registered in the order given. *)
Definition NewTracerProvider (opts : list TracerProviderOption) : TracerProvider :=
  fold_left applyOption opts
    {| sampler := ParentBasedAlwaysSample; spanProcessors := [];
       res := resource.Default |}.

End sdktrace.

(** ** go.opentelemetry.io/otel/sdk/metric *)
Module sdkmetric.

Inductive Reader : Type := detected (name : string).

Inductive Option_ : Type :=
| WithReader (r : Reader)
| WithResource (r : option resource.Resource).

Record MeterProvider : Type := {
  readers : list Reader;
  res : resource.Stored
}.

(** [WithResource(r)] stores [resource.Merge(resource.Environment(), r)]. *)
Definition applyOption (mp : MeterProvider) (opt : Option_) : MeterProvider :=
  match opt with
  | WithReader r => {| readers := readers mp ++ [r]; res := res mp |}
  | WithResource r => {| readers := readers mp; res := resource.MergeEnvironment r |}
  end.

Definition NewMeterProvider (opts : list Option_) : MeterProvider :=
  fold_left applyOption opts {| readers := []; res := resource.Default |}.

End sdkmetric.

(** ** go.opentelemetry.io/contrib/propagators/autoprop *)
Module autoprop.

(** A text-map propagator, by the names of the formats it composes
    (by default "tracecontext" and "baggage"). *)
Definition TextMapPropagator : Type := list string.

End autoprop.

(** ** cloud.google.com/go/compute/metadata *)
Module metadata.

(** The calls the metadata client can receive. *)
Inductive Query : Type := OnGCE | ProjectIDWithContext.

Definition Query_eqb (a b : Query) : bool :=
  match a, b with
  | OnGCE, OnGCE | ProjectIDWithContext, ProjectIDWithContext => true
  | _, _ => false
  end.

End metadata.

(** ** go.opentelemetry.io/otel: the process-wide registry *)
Module otel.

(** What [provider.Tracer(name)] and [provider.Meter(name)] hand out: the
    instrumentation name and the provider that was registered when the
    handle was asked for ([None]: the built-in no-op default). *)
Record tracer : Type := {
  tracerName : string;
  tracerProvider : option sdktrace.TracerProvider
}.

Record meter : Type := {
  meterName : string;
  meterProvider : option sdkmetric.MeterProvider
}.

Record Globals : Type := {
  TextMapPropagator : autoprop.TextMapPropagator;
  TracerProvider : option sdktrace.TracerProvider;
  MeterProvider : option sdkmetric.MeterProvider
}.

Definition SetTextMapPropagator (p : autoprop.TextMapPropagator) (g : Globals) : Globals :=
  {| TextMapPropagator := p; TracerProvider := TracerProvider g;
     MeterProvider := MeterProvider g |}.

Definition SetTracerProvider (tp : option sdktrace.TracerProvider) (g : Globals) : Globals :=
  {| TextMapPropagator := TextMapPropagator g; TracerProvider := tp;
     MeterProvider := MeterProvider g |}.

Definition SetMeterProvider (mp : option sdkmetric.MeterProvider) (g : Globals) : Globals :=
  {| TextMapPropagator := TextMapPropagator g; TracerProvider := TracerProvider g;
     MeterProvider := mp |}.

Definition Tracer (g : Globals) (name : string) : tracer :=
  {| tracerName := name; tracerProvider := TracerProvider g |}.

Definition Meter (g : Globals) (name : string) : meter :=
  {| meterName := name; meterProvider := MeterProvider g |}.

End otel.

(** Go's built-in [append(s, elems...)]; the slices here are never shared, so
    the result is the concatenation. *)
Definition append {T : Type} (s elems : list T) : list T := (s ++ elems)%list.

(** ** What the surroundings answer

    The results of the calls whose outcome is decided outside the program:
    the metadata server, and the exporter, reader and propagator detection
    driven by the process environment. *)
Record Environment : Type := {
  metadata_OnGCE : bool;
  metadata_ProjectIDWithContext : result string;
  autoexport_NewSpanExporter : result sdktrace.SpanExporter;
  stdouttrace_failure : option error;
  autoexport_NewMetricReader : result sdkmetric.Reader;
  autoprop_NewTextMapPropagator : autoprop.TextMapPropagator
}.

(** ** package othell: the handle and its options *)

Record Othell : Type := {
  CollectorEndpoint : string;
  TraceProvider : option sdktrace.TracerProvider;
  MeterProvider : option sdkmetric.MeterProvider;
  Tracer : option otel.tracer;
  Meter : option otel.meter;
  Resource : option resource.Resource;
  DebugTracer : bool
}.

(** [&Othell{}]. *)
Definition zeroOthell : Othell :=
  {| CollectorEndpoint := ""; TraceProvider := None; MeterProvider := None;
     Tracer := None; Meter := None; Resource := None; DebugTracer := false |}.

Definition set_CollectorEndpoint (v : string) (o : Othell) : Othell :=
  {| CollectorEndpoint := v; TraceProvider := TraceProvider o;
     MeterProvider := MeterProvider o; Tracer := Tracer o; Meter := Meter o;
     Resource := Resource o; DebugTracer := DebugTracer o |}.

Definition set_TraceProvider (v : option sdktrace.TracerProvider) (o : Othell) : Othell :=
  {| CollectorEndpoint := CollectorEndpoint o; TraceProvider := v;
     MeterProvider := MeterProvider o; Tracer := Tracer o; Meter := Meter o;
     Resource := Resource o; DebugTracer := DebugTracer o |}.

Definition set_MeterProvider (v : option sdkmetric.MeterProvider) (o : Othell) : Othell :=
  {| CollectorEndpoint := CollectorEndpoint o; TraceProvider := TraceProvider o;
     MeterProvider := v; Tracer := Tracer o; Meter := Meter o;
     Resource := Resource o; DebugTracer := DebugTracer o |}.

Definition set_Tracer (v : option otel.tracer) (o : Othell) : Othell :=
  {| CollectorEndpoint := CollectorEndpoint o; TraceProvider := TraceProvider o;
     MeterProvider := MeterProvider o; Tracer := v; Meter := Meter o;
     Resource := Resource o; DebugTracer := DebugTracer o |}.

Definition set_Meter (v : option otel.meter) (o : Othell) : Othell :=
  {| CollectorEndpoint := CollectorEndpoint o; TraceProvider := TraceProvider o;
     MeterProvider := MeterProvider o; Tracer := Tracer o; Meter := v;
     Resource := Resource o; DebugTracer := DebugTracer o |}.

Definition set_Resource (v : option resource.Resource) (o : Othell) : Othell :=
  {| CollectorEndpoint := CollectorEndpoint o; TraceProvider := TraceProvider o;
     MeterProvider := MeterProvider o; Tracer := Tracer o; Meter := Meter o;
     Resource := v; DebugTracer := DebugTracer o |}.

Definition set_DebugTracer (v : bool) (o : Othell) : Othell :=
  {| CollectorEndpoint := CollectorEndpoint o; TraceProvider := TraceProvider o;
     MeterProvider := MeterProvider o; Tracer := Tracer o; Meter := Meter o;
     Resource := Resource o; DebugTracer := v |}.

(** [Option] is a function on a pointer to the handle: the struct the
    pointer refers to, before and after the call. *)
Definition Option : Type := Othell -> Othell.

Definition WithCollectorEndpoint (endpoint : string) : Option :=
  fun o => set_CollectorEndpoint endpoint o.

Definition WithResource (res : option resource.Resource) : Option :=
  fun o => set_Resource res o.

Definition WithDebugTracer : Option :=
  fun o => set_DebugTracer true o.

(** The loop [for _, opt := range opts { opt(o) }] of [New]. *)
Definition applyOptions (opts : list Option) (o : Othell) : Othell :=
  fold_left (fun o opt => opt o) opts o.

(** The options a caller can write with the package's three constructors. *)
Inductive Setting : Type :=
| CollectorEndpointSetting (endpoint : string)
| ResourceSetting (res : option resource.Resource)
| DebugTracerSetting.

Definition toOption (s : Setting) : Option :=
  match s with
  | CollectorEndpointSetting endpoint => WithCollectorEndpoint endpoint
  | ResourceSetting res => WithResource res
  | DebugTracerSetting => WithDebugTracer
  end.

Definition isResourceSetting (s : Setting) : bool :=
  match s with ResourceSetting _ => true | _ => false end.

Definition isCollectorEndpointSetting (s : Setting) : bool :=
  match s with CollectorEndpointSetting _ => true | _ => false end.

Definition notCollectorEndpointSetting (s : Setting) : bool :=
  negb (isCollectorEndpointSetting s).

(** Two settings write the same field of the struct. *)
Definition sameField (a b : Setting) : bool :=
  match a, b with
  | CollectorEndpointSetting _, CollectorEndpointSetting _ => true
  | ResourceSetting _, ResourceSetting _ => true
  | DebugTracerSetting, DebugTracerSetting => true
  | _, _ => false
  end.

(** No field is written with two different values. *)
Definition writesAgree (l : list Setting) : Prop :=
  forall a b, In a l -> In b l -> sameField a b = true -> a = b.

(** ** The attribute rewriter handed to the JSON handler *)

Definition replacer (groups : list string) (a : slog.Attr) : outcome slog.Attr :=
  if slog.Key a =? slog.LevelKey then
    let a := {| slog.Key := "severity"; slog.Val := slog.Val a |} in
    match slog.assertLevel (slog.Any_ (slog.Val a)) with
    | Panic => Panic
    | Return level =>
        if (level =? slog.LevelWarn)%Z
        then Return {| slog.Key := slog.Key a; slog.Val := slog.StringValue "WARNING" |}
        else Return a
    end
  else if slog.Key a =? slog.TimeKey then
    Return {| slog.Key := "timestamp"; slog.Val := slog.Val a |}
  else if slog.Key a =? slog.MessageKey then
    Return {| slog.Key := "message"; slog.Val := slog.Val a |}
  else Return a.

(** ** Sample values used to exercise the definitions *)
Module Sample.

Definition res : resource.Resource :=
  {| resource.Attributes := [("service.name", "checkout")]; resource.SchemaURL := "" |}.

(** Not on GCE, OTLP exporter and reader detected, nothing fails. *)
Definition laptop : Environment :=
  {| metadata_OnGCE := false;
     metadata_ProjectIDWithContext := Err (errorString "metadata: not on GCE");
     autoexport_NewSpanExporter := Ok (sdktrace.detected "otlp");
     stdouttrace_failure := None;
     autoexport_NewMetricReader := Ok (sdkmetric.detected "otlp");
     autoprop_NewTextMapPropagator := ["tracecontext"; "baggage"] |}.

(** As [laptop], but no metric reader can be built. *)
Definition noReader : Environment :=
  {| metadata_OnGCE := false;
     metadata_ProjectIDWithContext := Err (errorString "metadata: not on GCE");
     autoexport_NewSpanExporter := Ok (sdktrace.detected "otlp");
     stdouttrace_failure := None;
     autoexport_NewMetricReader := Err (errorString "unknown metrics exporter");
     autoprop_NewTextMapPropagator := ["tracecontext"; "baggage"] |}.

(** On GCE, but the project-id query fails. *)
Definition flakyGCE : Environment :=
  {| metadata_OnGCE := true;
     metadata_ProjectIDWithContext := Err (errorString "metadata: timeout");
     autoexport_NewSpanExporter := Ok (sdktrace.detected "otlp");
     stdouttrace_failure := None;
     autoexport_NewMetricReader := Ok (sdkmetric.detected "otlp");
     autoprop_NewTextMapPropagator := ["tracecontext"; "baggage"] |}.

(** As [laptop], but the stdout exporter cannot be built. *)
Definition noConsole : Environment :=
  {| metadata_OnGCE := false;
     metadata_ProjectIDWithContext := Err (errorString "metadata: not on GCE");
     autoexport_NewSpanExporter := Ok (sdktrace.detected "otlp");
     stdouttrace_failure := Some (errorString "stdout: closed");
     autoexport_NewMetricReader := Ok (sdkmetric.detected "otlp");
     autoprop_NewTextMapPropagator := ["tracecontext"; "baggage"] |}.

Definition tid : trace.TraceID :=
  [x4b; xf9; x2f; x35; x77; xb3; x4d; xa6; xa3; xce; x92; x9d; x0e; x0e; x47; x36].
Definition sid : trace.SpanID := [x00; xf0; x67; xaa; x0b; xa9; x02; xb7].

Definition sampledSpan : trace.SpanContext :=
  {| trace.traceID := tid; trace.spanID := sid; trace.traceFlags := 1%Z;
     trace.traceState := ""; trace.remote := false |}.

Definition inSpan : context.Context := {| context.currentSpan := Some sampledSpan |}.

(** A sampled span context whose span id is all zeros. *)
Definition noSpanID : trace.SpanContext :=
  {| trace.traceID := tid; trace.spanID := repeat x00 8; trace.traceFlags := 1%Z;
     trace.traceState := ""; trace.remote := false |}.

Definition hello : slog.Record_ :=
  {| slog.Time := 1700000000%Z; slog.Message := "hello"; slog.Level_ := slog.LevelInfo;
     slog.PC := 0%Z; slog.front := [slog.Bool "ok" true]; slog.back := slog.nilSlice |}.

(** A handler double that records what it is handed: the context, the
    message and the attributes it finds in the record. *)
Definition Seen : Type := list (context.Context * string * list slog.Attr).

Definition record (_ : unit) (ctx : context.Context) (r : slog.Record_)
    (st : slog.Heap * Seen) : option error * (slog.Heap * Seen) :=
  (None, (fst st, (snd st ++ [(ctx, slog.Message r, slog.Attrs (fst st) r)])%list)).

(** An allocator that doubles the capacity when a slice outgrows it. *)
Definition doubling (oldcap newlen : nat) : nat := 2 * oldcap - newlen.

Definition eight : list slog.Attr :=
  [ slog.String_ "k1" "v1"; slog.String_ "k2" "v2"; slog.String_ "k3" "v3";
    slog.String_ "k4" "v4"; slog.String_ "k5" "v5"; slog.String_ "k6" "v6";
    slog.String_ "k7" "v7"; slog.String_ "k8" "v8" ].

(** A record that was given eight attributes by eight calls of AddAttrs:
    five inline, three in a slice of capacity four. *)
Definition crowded : slog.Record_ * slog.Heap :=
  fold_left (fun rh a => slog.AddAttrs doubling (fst rh) [a] (snd rh)) eight
    ({| slog.Time := 1700000000%Z; slog.Message := "crowded";
        slog.Level_ := slog.LevelInfo; slog.PC := 0%Z;
        slog.front := []; slog.back := slog.nilSlice |}, []).

Definition newHandler (_ : File) (_ : slog.HandlerOptions) : unit := tt.

End Sample.

(** ** package othell: process state, initialisation and logging *)
Section Othell.

(** The [slog.Handler]s implemented outside this package (the JSON handler
    among them), what they write to, and how they handle a record.  A
    handler works on the memory the records' slices live in and on its
    output. *)
Variable Output : Type.
Definition Sink : Type := (slog.Heap * Output)%type.
Variable ExternalHandler : Type.
Variable externalHandle :
  ExternalHandler -> context.Context -> slog.Record_ -> Sink -> option error * Sink.
Variable NewJSONHandler : File -> slog.HandlerOptions -> ExternalHandler.

(** The capacity the allocator hands out beyond the length asked for when a
    slice grows (see [slog.appendAttr]). *)
Variable growSlack : nat -> nat -> nat.

(** A value of interface type [slog.Handler]: a handler from outside, or this
    package's struct embedding another handler. *)
Inductive Handler : Type :=
| external (h : ExternalHandler)
| spanContextLogHandler (Handler_ : Handler).

Definition handlerWithSpanContext (handler : Handler) : Handler :=
  spanContextLogHandler handler.

(** [slog.New(h)]. *)
Record Logger : Type := { handler : Handler }.

(** Everything process-wide the package reads or writes: its own variable
    [projectID], the otel registry, the default logger; and, as a call
    counter on the metadata source, the queries issued so far. *)
Record Process : Type := {
  projectID : string;
  otelGlobals : otel.Globals;
  slogDefault : Logger;
  metadataLog : list metadata.Query
}.

Definition set_projectID (v : string) (p : Process) : Process :=
  {| projectID := v; otelGlobals := otelGlobals p; slogDefault := slogDefault p;
     metadataLog := metadataLog p |}.

Definition set_otelGlobals (v : otel.Globals) (p : Process) : Process :=
  {| projectID := projectID p; otelGlobals := v; slogDefault := slogDefault p;
     metadataLog := metadataLog p |}.

(** [slog.SetDefault(l)]. *)
Definition slog_SetDefault (l : Logger) (p : Process) : Process :=
  {| projectID := projectID p; otelGlobals := otelGlobals p; slogDefault := l;
     metadataLog := metadataLog p |}.

Definition query (q : metadata.Query) (p : Process) : Process :=
  {| projectID := projectID p; otelGlobals := otelGlobals p; slogDefault := slogDefault p;
     metadataLog := metadataLog p ++ [q] |}.

Definition getProjectID (env : Environment) (p : Process) : string * Process :=
  let p := query metadata.OnGCE p in
  if metadata_OnGCE env then
    let p := query metadata.ProjectIDWithContext p in
    match metadata_ProjectIDWithContext env with
    | Ok id => (id, p)
    | Err _ => ("non-gcp", p)
    end
  else ("non-gcp", p).

(** [func init()]. *)
Definition init (env : Environment) (p : Process) : Process :=
  let (id, p) := getProjectID env p in
  set_projectID id p.

Definition initTracer (env : Environment) (o : Othell) (p : Process)
  : option error * Othell * Process :=
  let p := set_otelGlobals
             (otel.SetTextMapPropagator (autoprop_NewTextMapPropagator env) (otelGlobals p)) p in
  match autoexport_NewSpanExporter env with
  | Err err => (Some err, o, p)
  | Ok otelExporter =>
      let traceProviderOptions := [] in
      let traceProviderOptions :=
        append traceProviderOptions [sdktrace.WithSampler sdktrace.AlwaysSample] in
      let traceProviderOptions :=
        append traceProviderOptions
          [sdktrace.WithSpanProcessor (sdktrace.NewBatchSpanProcessor otelExporter)] in
      let traceProviderOptions :=
        append traceProviderOptions [sdktrace.WithResource (Resource o)] in
      let install traceProviderOptions :=
        let o := set_TraceProvider
                   (Some (sdktrace.NewTracerProvider traceProviderOptions)) o in
        let p := set_otelGlobals
                   (otel.SetTracerProvider (TraceProvider o) (otelGlobals p)) p in
        (None, o, p) in
      if DebugTracer o then
        match stdouttrace.New (stdouttrace_failure env) [stdouttrace.WithPrettyPrint] with
        | Err err => (Some (wrapError "failed to create console exporter: %w" err), o, p)
        | Ok consoleExporter =>
            install
              (append traceProviderOptions
                 [sdktrace.WithSpanProcessor
                    (sdktrace.NewSimpleSpanProcessor (sdktrace.console consoleExporter))])
        end
      else install traceProviderOptions
  end.

Definition initMeter (env : Environment) (o : Othell) (p : Process)
  : option error * Othell * Process :=
  match autoexport_NewMetricReader env with
  | Err err => (Some (joinError [err]), o, p)
  | Ok meter =>
      let o := set_MeterProvider
                 (Some (sdkmetric.NewMeterProvider
                          [sdkmetric.WithReader meter; sdkmetric.WithResource (Resource o)])) o in
      let p := set_otelGlobals
                 (otel.SetMeterProvider (MeterProvider o) (otelGlobals p)) p in
      (None, o, p)
  end.

Definition initLogging (o : Othell) (p : Process) : option error * Othell * Process :=
  let jsonHandler :=
    NewJSONHandler Stdout
      {| slog.AddSource := false; slog.ReplaceAttr := Some replacer |} in
  let instrumentedHandler := handlerWithSpanContext (external jsonHandler) in
  let p := slog_SetDefault {| handler := instrumentedHandler |} p in
  (None, o, p).

(** [New] returns the pointer (nil or the handle), the error, and leaves the
    process state behind. *)
Definition New (env : Environment) (name : string) (opts : list Option) (p : Process)
  : (option Othell * option error) * Process :=
  let o := applyOptions opts zeroOthell in
  match Resource o with
  | None => ((None, Some (errorString "resource is required. Use WithResoure()")), p)
  | Some _ =>
      match initTracer env o p with
      | (Some err, o, p) => ((Some o, Some err), p)
      | (None, o, p) =>
          match initMeter env o p with
          | (Some err, o, p) => ((Some o, Some err), p)
          | (None, o, p) =>
              match initLogging o p with
              | (Some err, o, p) => ((Some o, Some err), p)
              | (None, o, p) =>
                  let o := set_Meter (Some (otel.Meter (otelGlobals p) (name ++ "-meter"))) o in
                  let o := set_Tracer (Some (otel.Tracer (otelGlobals p) (name ++ "-tracer"))) o in
                  ((Some o, None), p)
              end
          end
      end
  end.

(** [spanContextLogHandler.Handle]; [next] is the Handle method of the
    embedded handler.  [record] is the method's own copy of the caller's
    Record: AddAttrs changes that copy and, through its slice, the memory
    it shares with the caller's. *)
Definition spanContextLogHandler_Handle (p : Process)
    (next : context.Context -> slog.Record_ -> Sink -> option error * Sink)
    (ctx : context.Context) (record : slog.Record_) (st : Sink) : option error * Sink :=
  let s := SpanContextFromContext ctx in
  let '(record, st) :=
    if trace.IsValid s then
      let '(record, heap) :=
        slog.AddAttrs growSlack record
          [slog.Any "logging.googleapis.com/trace"
             (slog.any_string
                ("projects/" ++ projectID p ++ "/traces/"
                   ++ trace.TraceID_String (trace.traceID s)))]
          (fst st) in
      let '(record, heap) :=
        slog.AddAttrs growSlack record
          [slog.Any "logging.googleapis.com/spanId" (slog.any_SpanID (trace.spanID s))]
          heap in
      let '(record, heap) :=
        slog.AddAttrs growSlack record
          [slog.Bool "logging.googleapis.com/trace_sampled"
             (trace.IsSampled (trace.traceFlags s))]
          heap in
      (record, (heap, snd st))
    else (record, st) in
  next ctx record st.

(** Method dispatch on a [slog.Handler] value. *)
Fixpoint Handle (p : Process) (h : Handler)
  : context.Context -> slog.Record_ -> Sink -> option error * Sink :=
  match h with
  | external e => externalHandle e
  | spanContextLogHandler inner => spanContextLogHandler_Handle p (Handle p inner)
  end.

(** *** A process: [init] once at load, then any calls into the package

    [CallLog] is the default logger's handler being handed a record, as a
    logger does once its Enabled check has passed. *)

Inductive Call : Type :=
| CallNew (env : Environment) (name : string) (opts : list Option)
| CallLog (ctx : context.Context) (record : slog.Record_).

Definition step (st : Process * Sink) (c : Call) : Process * Sink :=
  match c with
  | CallNew env name opts => (snd (New env name opts (fst st)), snd st)
  | CallLog ctx record =>
      (fst st, snd (Handle (fst st) (handler (slogDefault (fst st))) ctx record (snd st)))
  end.

Definition run (calls : list Call) (st : Process * Sink) : Process * Sink :=
  fold_left step calls st.

(** The state a process is loaded with, before any [init] has run. *)
Definition loaded (defaultHandler : ExternalHandler) : Process :=
  {| projectID := "";
     otelGlobals := {| otel.TextMapPropagator := []; otel.TracerProvider := None;
                       otel.MeterProvider := None |};
     slogDefault := {| handler := external defaultHandler |};
     metadataLog := [] |}.

(** ** Properties *)

(** *** Slices and records in memory *)

Lemma length_update {T : Type} (l : list T) (i : nat) (c : T) :
  i < length l -> length (firstn i l ++ c :: skipn (S i) l)%list = length l.
Proof.
  intros H. rewrite length_app, length_firstn. cbn [length]. rewrite length_skipn. lia.
Qed.

Lemma nth_update_above {T : Type} (l : list T) (i j : nat) (c d : T) :
  i < j -> nth j (firstn i l ++ c :: skipn (S i) l)%list d = nth j l d.
Proof.
  intros H.
  destruct (Nat.le_gt_cases (length l) i) as [Hl | Hl].
  - rewrite firstn_all2, skipn_all2 by lia.
    rewrite (nth_overflow l) by lia.
    apply nth_overflow. rewrite length_app. cbn. lia.
  - rewrite app_nth2; rewrite length_firstn; [| lia].
    replace (Nat.min i (length l)) with i by lia.
    destruct (j - i) as [|m] eqn:Hm; [lia |].
    cbn [nth]. rewrite nth_skipn. f_equal. lia.
Qed.

Lemma firstn_update {T : Type} (l : list T) (i : nat) (c : T) :
  i <= length l ->
  firstn (S i) (firstn i l ++ c :: skipn (S i) l)%list = (firstn i l ++ [c])%list.
Proof.
  intros H. rewrite firstn_app, length_firstn.
  replace (Nat.min i (length l)) with i by lia.
  rewrite firstn_firstn. replace (Nat.min (S i) i) with i by lia.
  replace (S i - i) with 1 by lia. reflexivity.
Qed.

Lemma nth_store (h : slog.Heap) (a i : nat) (c : option slog.Attr) :
  a < length h ->
  nth a (slog.store h a i c) []
  = (firstn i (nth a h []) ++ c :: skipn (S i) (nth a h []))%list.
Proof.
  revert a; induction h as [|x h IH]; intros a Ha; [cbn in Ha; lia |].
  destruct a as [|a]; [reflexivity |].
  cbn in Ha. unfold slog.store in *. cbn [firstn skipn app nth].
  apply IH. lia.
Qed.

(** What [append] leaves when it has to take a new array. *)
Lemma grown_spec (h : slog.Heap) (s : slog.Slice) (a : slog.Attr) (k : nat) :
  slog.wfSlice h s ->
  let s' := {| slog.ptr := Some (length h); slog.len := S (slog.len s);
               slog.cap := S (slog.len s) + k |} in
  let h' := (h ++ [firstn (slog.len s) (slog.array h s)
                     ++ Some a :: repeat None (S (slog.len s) + k - S (slog.len s))])%list in
  slog.wfSlice h' s' /\ slog.unwritten h' s'
  /\ slog.items h' s' = (slog.items h s ++ [a])%list.
Proof.
  intros [Hlen Hcap] s' h'.
  assert (slog.array h' s'
          = (firstn (slog.len s) (slog.array h s)
               ++ Some a :: repeat None k)%list) as Harr.
  { unfold slog.array, s', h'. cbn [slog.ptr]. rewrite nth_middle.
    now replace (S (slog.len s) + k - S (slog.len s)) with k by lia. }
  assert (length (firstn (slog.len s) (slog.array h s)) = slog.len s) as Hfl.
  { apply firstn_length_le. lia. }
  split; [| split].
  - unfold slog.wfSlice. rewrite Harr, length_app, Hfl. cbn. rewrite repeat_length. lia.
  - intros i Hi Hc. unfold slog.cell. rewrite Harr. cbn [slog.len s'] in Hi.
    rewrite app_nth2; rewrite Hfl; [| lia].
    destruct (i - slog.len s) as [|m] eqn:Hm; [lia |].
    cbn [nth]. apply nth_repeat.
  - unfold slog.items. rewrite Harr. cbn [slog.len s'].
    rewrite firstn_app, Hfl, firstn_firstn.
    replace (Nat.min (S (slog.len s)) (slog.len s)) with (slog.len s) by lia.
    replace (S (slog.len s) - slog.len s) with 1 by lia.
    cbn [firstn]. now rewrite flat_map_app.
Qed.

Lemma appendAttr_spec (extra : nat -> nat -> nat) (h : slog.Heap) (s : slog.Slice)
    (a : slog.Attr) :
  slog.wfSlice h s -> slog.unwritten h s ->
  slog.wfSlice (snd (slog.appendAttr extra h s a)) (fst (slog.appendAttr extra h s a))
  /\ slog.unwritten (snd (slog.appendAttr extra h s a)) (fst (slog.appendAttr extra h s a))
  /\ slog.items (snd (slog.appendAttr extra h s a)) (fst (slog.appendAttr extra h s a))
     = (slog.items h s ++ [a])%list
  /\ slog.len (fst (slog.appendAttr extra h s a)) = S (slog.len s).
Proof.
  intros Hwf Hun.
  pose proof (grown_spec h s a (extra (slog.cap s) (S (slog.len s))) Hwf) as Hg.
  cbv zeta in Hg. destruct Hg as (Hg1 & Hg2 & Hg3).
  unfold slog.appendAttr.
  assert (forall sh,
            sh = ({| slog.ptr := Some (length h); slog.len := S (slog.len s);
                     slog.cap := S (slog.len s) + extra (slog.cap s) (S (slog.len s)) |},
                  (h ++ [firstn (slog.len s) (slog.array h s)
                           ++ Some a
                              :: repeat None
                                   (S (slog.len s) + extra (slog.cap s) (S (slog.len s))
                                    - S (slog.len s))])%list) ->
            slog.wfSlice (snd sh) (fst sh) /\ slog.unwritten (snd sh) (fst sh)
            /\ slog.items (snd sh) (fst sh) = (slog.items h s ++ [a])%list
            /\ slog.len (fst sh) = S (slog.len s)) as Hgrown.
  { intros sh ->. cbn [fst snd]. split; [exact Hg1 | split; [exact Hg2 | split; [exact Hg3 |]]].
    reflexivity. }
  destruct (slog.ptr s) as [p|] eqn:Hp; [| now apply Hgrown].
  destruct (slog.len s <? slog.cap s)%nat eqn:Hroom; [| now apply Hgrown].
  apply Nat.ltb_lt in Hroom. destruct Hwf as [Hlen Hcap].
  cbn [fst snd].
  assert (slog.array h s = nth p h []) as Ha by (unfold slog.array; now rewrite Hp).
  assert (p < length h) as Hph.
  { destruct (Nat.lt_ge_cases p (length h)) as [|Hge]; [assumption |].
    rewrite Ha, (nth_overflow h [] Hge) in Hcap. cbn in Hcap. lia. }
  assert (slog.array (slog.store h p (slog.len s) (Some a))
            {| slog.ptr := Some p; slog.len := S (slog.len s); slog.cap := slog.cap s |}
          = (firstn (slog.len s) (slog.array h s)
               ++ Some a :: skipn (S (slog.len s)) (slog.array h s))%list) as Harr.
  { unfold slog.array at 1. cbn [slog.ptr]. rewrite nth_store by exact Hph. now rewrite Ha. }
  split; [| split; [| split]].
  - unfold slog.wfSlice. rewrite Harr, length_update by lia. cbn. lia.
  - intros i Hi Hc. cbn [slog.len slog.cap] in Hi, Hc.
    unfold slog.cell. rewrite Harr, nth_update_above by lia.
    apply (Hun i); lia.
  - unfold slog.items. cbn [slog.len]. rewrite Harr, firstn_update by lia.
    now rewrite flat_map_app.
  - reflexivity.
Qed.

Lemma Grow_spec (extra : nat -> nat -> nat) (h : slog.Heap) (s : slog.Slice) (n : nat) :
  slog.wfSlice h s -> slog.unwritten h s ->
  slog.wfSlice (snd (slog.Grow extra h s n)) (fst (slog.Grow extra h s n))
  /\ slog.unwritten (snd (slog.Grow extra h s n)) (fst (slog.Grow extra h s n))
  /\ slog.items (snd (slog.Grow extra h s n)) (fst (slog.Grow extra h s n)) = slog.items h s
  /\ slog.len (fst (slog.Grow extra h s n)) = slog.len s.
Proof.
  intros [Hlen Hcap] Hun. unfold slog.Grow.
  destruct (n <=? slog.cap s - slog.len s)%nat; [cbn [fst snd]; now repeat split |].
  cbn [fst snd].
  set (newcap := slog.cap s + (n - (slog.cap s - slog.len s))
                 + extra (slog.cap s) (slog.cap s + (n - (slog.cap s - slog.len s)))).
  set (s' := {| slog.ptr := Some (length h); slog.len := slog.len s; slog.cap := newcap |}).
  assert (length (firstn (slog.cap s) (slog.array h s)) = slog.cap s) as Hfl
      by (apply firstn_length_le; lia).
  assert (slog.array
            (h ++ [firstn (slog.cap s) (slog.array h s)
                     ++ repeat None (newcap - slog.cap s)])%list s'
          = (firstn (slog.cap s) (slog.array h s)
               ++ repeat None (newcap - slog.cap s))%list) as Harr.
  { unfold slog.array at 1, s'. cbn [slog.ptr]. now rewrite nth_middle. }
  split; [| split; [| split]].
  - unfold slog.wfSlice. rewrite Harr, length_app, Hfl, repeat_length.
    unfold s'; cbn [slog.len slog.cap]. lia.
  - intros i Hi Hc. unfold s' in Hi; cbn [slog.len] in Hi.
    unfold slog.cell. rewrite Harr.
    destruct (Nat.lt_ge_cases i (slog.cap s)) as [Hlt | Hge].
    + rewrite app_nth1 by lia. rewrite nth_firstn.
      apply Nat.ltb_lt in Hlt as Hb. rewrite Hb. now apply (Hun i).
    + rewrite app_nth2 by lia. apply nth_repeat.
  - unfold slog.items. rewrite Harr. unfold s'; cbn [slog.len].
    rewrite firstn_app, Hfl, firstn_firstn.
    replace (Nat.min (slog.len s) (slog.cap s)) with (slog.len s) by lia.
    replace (slog.len s - slog.cap s) with 0 by lia.
    cbn [firstn]. now rewrite app_nil_r.
  - reflexivity.
Qed.

Lemma appendAttrs_spec (extra : nat -> nat -> nat) (rest : list slog.Attr)
    (h : slog.Heap) (s : slog.Slice) :
  slog.wfSlice h s -> slog.unwritten h s ->
  let sh := fold_left (fun sh a => slog.appendAttr extra (snd sh) (fst sh) a) rest (s, h) in
  slog.wfSlice (snd sh) (fst sh) /\ slog.unwritten (snd sh) (fst sh)
  /\ slog.items (snd sh) (fst sh) = (slog.items h s ++ rest)%list
  /\ slog.len (fst sh) = slog.len s + length rest.
Proof.
  revert h s; induction rest as [|a rest IH]; intros h s Hwf Hun; cbv zeta.
  - cbn. rewrite app_nil_r. repeat split; auto; apply Hwf.
  - cbn [fold_left fst snd].
    destruct (appendAttr_spec extra h s a Hwf Hun) as (Hwf' & Hun' & Hit & Hl).
    destruct (slog.appendAttr extra h s a) as [s1 h1]. cbn [fst snd] in *.
    specialize (IH h1 s1 Hwf' Hun'). cbv zeta in IH.
    destruct IH as (I1 & I2 & I3 & I4).
    repeat split; try apply I1; try assumption.
    + rewrite I3, Hit, <- app_assoc. reflexivity.
    + rewrite I4, Hl. cbn. lia.
Qed.

(** On a record in good order whose slice has no written cell past its end,
    AddAttrs is plain appending. *)
Lemma AddAttrs_spec (extra : nat -> nat -> nat) (r : slog.Record_)
    (attrs : list slog.Attr) (h : slog.Heap) :
  slog.wfRecord h r -> slog.unwritten h (slog.back r) ->
  slog.wfRecord (snd (slog.AddAttrs extra r attrs h)) (fst (slog.AddAttrs extra r attrs h))
  /\ slog.unwritten (snd (slog.AddAttrs extra r attrs h))
       (slog.back (fst (slog.AddAttrs extra r attrs h)))
  /\ slog.Attrs (snd (slog.AddAttrs extra r attrs h)) (fst (slog.AddAttrs extra r attrs h))
     = (slog.Attrs h r ++ attrs)%list
  /\ slog.Time (fst (slog.AddAttrs extra r attrs h)) = slog.Time r
  /\ slog.Message (fst (slog.AddAttrs extra r attrs h)) = slog.Message r
  /\ slog.Level_ (fst (slog.AddAttrs extra r attrs h)) = slog.Level_ r
  /\ slog.PC (fst (slog.AddAttrs extra r attrs h)) = slog.PC r.
Proof.
  intros (Hfront & Hback & Hwf) Hun. unfold slog.AddAttrs.
  set (room := slog.nAttrsInline - length (slog.front r)).
  assert ((if (slog.len (slog.back r) <? slog.cap (slog.back r))%nat
           then match slog.cell h (slog.back r) (slog.len (slog.back r)) with
                | Some _ =>
                    slog.appendAttr extra h (slog.Clip (slog.back r))
                      (slog.String_ "!BUG"
                         "AddAttrs unsafely called on copy of Record made without using Record.Clone")
                | None => (slog.back r, h)
                end
           else (slog.back r, h)) = (slog.back r, h)) as ->.
  { destruct (slog.len (slog.back r) <? slog.cap (slog.back r))%nat eqn:Hc; [| reflexivity].
    apply Nat.ltb_lt in Hc. now rewrite (Hun _ (Nat.le_refl _) Hc). }
  destruct (Grow_spec extra h (slog.back r) (length (skipn room attrs)) Hwf Hun)
    as (G1 & G2 & G3 & G4).
  destruct (slog.Grow extra h (slog.back r) (length (skipn room attrs))) as [back2 h2].
  cbn [fst snd] in G1, G2, G3, G4.
  pose proof (appendAttrs_spec extra (skipn room attrs) h2 back2 G1 G2) as HA.
  cbv zeta in HA. destruct HA as (A1 & A2 & A3 & A4).
  destruct (fold_left _ (skipn room attrs) (back2, h2)) as [back3 h3].
  cbn [fst snd] in *. unfold slog.wfRecord.
  cbn [slog.front slog.back slog.Time slog.Message slog.Level_ slog.PC].
  repeat split; try assumption; try apply A1.
  - rewrite length_app.
    pose proof (firstn_le_length room attrs). unfold room in *. lia.
  - rewrite length_app, length_firstn. intros Hlt.
    rewrite A4, G4, length_skipn. unfold room in *. lia.
  - unfold slog.Attrs. cbn [slog.front slog.back]. rewrite A3, G3.
    destruct room as [|m] eqn:Hroom.
    + cbn [firstn skipn]. now rewrite app_nil_r, app_assoc.
    + assert (slog.items h (slog.back r) = []) as ->.
      { unfold slog.items. rewrite Hback; [reflexivity |]. unfold room in Hroom. lia. }
      cbn [app]. rewrite <- app_assoc, firstn_skipn. now rewrite app_nil_r.
Qed.

(** *** The attribute rewriter *)

Lemma replacer_other_key (groups : list string) (a : slog.Attr) :
  slog.Key a <> slog.LevelKey -> slog.Key a <> slog.TimeKey ->
  slog.Key a <> slog.MessageKey ->
  replacer groups a = Return a.
Proof.
  intros Hl Ht Hm. unfold replacer.
  apply String.eqb_neq in Hl, Ht, Hm.
  now rewrite Hl, Ht, Hm.
Qed.

(** C3: the rewriter renames the time key to "timestamp", the message key
    to "message" and the level key to "severity"; under the level key the
    warning level becomes the string "WARNING" and every other level is
    returned as it came. *)
Theorem replacer_renames_keys_and_rewrites_warning
    (groups : list string) (v : slog.Value) (level : slog.Level) :
  replacer groups {| slog.Key := slog.TimeKey; slog.Val := v |}
    = Return {| slog.Key := "timestamp"; slog.Val := v |}
  /\ replacer groups {| slog.Key := slog.MessageKey; slog.Val := v |}
    = Return {| slog.Key := "message"; slog.Val := v |}
  /\ replacer groups {| slog.Key := slog.LevelKey;
                        slog.Val := slog.AnyValue (slog.any_Level slog.LevelWarn) |}
    = Return {| slog.Key := "severity"; slog.Val := slog.StringValue "WARNING" |}
  /\ replacer groups {| slog.Key := slog.LevelKey;
                        slog.Val := slog.AnyValue (slog.any_Level level) |}
    = Return {| slog.Key := "severity";
                slog.Val := if (level =? slog.LevelWarn)%Z
                            then slog.StringValue "WARNING"
                            else slog.AnyValue (slog.any_Level level) |}.
Proof.
  repeat split; try reflexivity.
  unfold replacer; cbn.
  now destruct (level =? slog.LevelWarn)%Z.
Qed.

(** C9: under the level key, a value whose dynamic type is not slog.Level
    makes the rewriter panic; nothing is returned. *)
Theorem replacer_panics_on_level_key_without_Level
    (groups : list string) (v : slog.Value) :
  (forall l, slog.Any_ v <> slog.any_Level l) ->
  replacer groups {| slog.Key := slog.LevelKey; slog.Val := v |} = Panic.
Proof.
  intros Hv. unfold replacer; cbn.
  destruct (slog.Any_ v) eqn:E; cbn; try reflexivity.
  now elim (Hv l).
Qed.

(** *** The span-context decorator *)

(** What the decorator hands on, for a record in good order whose slice has
    no written cell past its end. *)
Lemma spanContextLogHandler_Handle_spec (p : Process)
    (next : context.Context -> slog.Record_ -> Sink -> option error * Sink)
    (ctx : context.Context) (record : slog.Record_) (heap : slog.Heap) (out : Output) :
  slog.wfRecord heap record -> slog.unwritten heap (slog.back record) ->
  exists record' heap',
    spanContextLogHandler_Handle p next ctx record (heap, out)
    = next ctx record' (heap', out)
    /\ slog.Time record' = slog.Time record
    /\ slog.Message record' = slog.Message record
    /\ slog.Level_ record' = slog.Level_ record
    /\ slog.PC record' = slog.PC record
    /\ slog.Attrs heap' record'
       = (slog.Attrs heap record
            ++ (if trace.IsValid (SpanContextFromContext ctx)
                then
                  [ {| slog.Key := "logging.googleapis.com/trace";
                       slog.Val :=
                         slog.StringValue
                           ("projects/" ++ projectID p ++ "/traces/"
                              ++ trace.TraceID_String
                                   (trace.traceID (SpanContextFromContext ctx))) |};
                    {| slog.Key := "logging.googleapis.com/spanId";
                       slog.Val :=
                         slog.KindAny
                           (slog.any_SpanID (trace.spanID (SpanContextFromContext ctx))) |};
                    {| slog.Key := "logging.googleapis.com/trace_sampled";
                       slog.Val :=
                         slog.BoolValue
                           (trace.IsSampled
                              (trace.traceFlags (SpanContextFromContext ctx))) |} ]
                else []))%list
    /\ slog.wfRecord heap' record'
    /\ slog.unwritten heap' (slog.back record')
    /\ (trace.IsValid (SpanContextFromContext ctx) = false ->
        record' = record /\ heap' = heap).
Proof.
  intros Hwf Hun. unfold spanContextLogHandler_Handle. cbn [fst snd].
  destruct (trace.IsValid (SpanContextFromContext ctx)) eqn:Hv.
  - match goal with
    | |- context [slog.AddAttrs growSlack record ?l heap] =>
        destruct (AddAttrs_spec growSlack record l heap Hwf Hun)
          as (W1 & U1 & A1 & T1 & M1 & L1 & P1);
        destruct (slog.AddAttrs growSlack record l heap) as [r1 h1]
    end.
    cbn [fst snd] in *.
    match goal with
    | |- context [slog.AddAttrs growSlack r1 ?l h1] =>
        destruct (AddAttrs_spec growSlack r1 l h1 W1 U1)
          as (W2 & U2 & A2 & T2 & M2 & L2 & P2);
        destruct (slog.AddAttrs growSlack r1 l h1) as [r2 h2]
    end.
    cbn [fst snd] in *.
    match goal with
    | |- context [slog.AddAttrs growSlack r2 ?l h2] =>
        destruct (AddAttrs_spec growSlack r2 l h2 W2 U2)
          as (W3 & U3 & A3 & T3 & M3 & L3 & P3);
        destruct (slog.AddAttrs growSlack r2 l h2) as [r3 h3]
    end.
    cbn [fst snd] in *.
    exists r3, h3. repeat split; try congruence; try apply W3; try assumption.
    rewrite A3, A2, A1, <- !app_assoc. reflexivity.
  - exists record, heap. rewrite app_nil_r.
    repeat split; try reflexivity; try apply Hwf; assumption.
Qed.

(** *** Tracer set-up *)

Lemma initTracer_propagator (env : Environment) (o o' : Othell) (p p' : Process)
    (e : option error) :
  initTracer env o p = (e, o', p') ->
  otel.TextMapPropagator (otelGlobals p') = autoprop_NewTextMapPropagator env
  /\ projectID p' = projectID p
  /\ metadataLog p' = metadataLog p
  /\ slogDefault p' = slogDefault p
  /\ otel.MeterProvider (otelGlobals p') = otel.MeterProvider (otelGlobals p).
Proof.
  unfold initTracer.
  destruct (autoexport_NewSpanExporter env) as [x|err].
  - destruct (DebugTracer o).
    + destruct (stdouttrace.New _ _); intros H; inversion H; subst; cbn; auto.
    + intros H; inversion H; subst; cbn; auto.
  - intros H; inversion H; subst; cbn; auto.
Qed.

(** What a successful initTracer leaves behind. *)
Lemma initTracer_success (env : Environment) (o o' : Othell) (p p' : Process) :
  initTracer env o p = (None, o', p') ->
  exists otelExporter tp,
    autoexport_NewSpanExporter env = Ok otelExporter
    /\ (DebugTracer o = true -> stdouttrace_failure env = None)
    /\ o' = set_TraceProvider (Some tp) o
    /\ otel.TracerProvider (otelGlobals p') = Some tp
    /\ sdktrace.sampler tp = sdktrace.AlwaysSample
    /\ sdktrace.res tp = resource.MergeEnvironment (Resource o)
    /\ sdktrace.spanProcessors tp =
         if DebugTracer o
         then [ sdktrace.NewBatchSpanProcessor otelExporter;
                sdktrace.NewSimpleSpanProcessor
                  (sdktrace.console
                     {| stdouttrace.PrettyPrint := true; stdouttrace.Timestamps := true;
                        stdouttrace.Writer := Stdout |}) ]
         else [ sdktrace.NewBatchSpanProcessor otelExporter ].
Proof.
  unfold initTracer.
  destruct (autoexport_NewSpanExporter env) as [x|err]; [| discriminate].
  destruct (DebugTracer o) eqn:Hd.
  - unfold stdouttrace.New.
    destruct (stdouttrace_failure env); [discriminate |].
    intros H; inversion H; subst; clear H.
    eexists; eexists; repeat split; reflexivity.
  - intros H; inversion H; subst; clear H.
    eexists; eexists; repeat split; try reflexivity; discriminate.
Qed.

(** C4: when initTracer succeeds, the provider it builds and installs has
    the batching processor on the detected exporter, followed - only when
    the debug flag is set - by the simple processor on a pretty-printing
    stdout exporter. *)
Theorem initTracer_span_processors
    (env : Environment) (o o' : Othell) (p p' : Process) :
  initTracer env o p = (None, o', p') ->
  exists otelExporter tp,
    autoexport_NewSpanExporter env = Ok otelExporter
    /\ TraceProvider o' = Some tp
    /\ otel.TracerProvider (otelGlobals p') = Some tp
    /\ sdktrace.spanProcessors tp =
         if DebugTracer o
         then [ sdktrace.NewBatchSpanProcessor otelExporter;
                sdktrace.NewSimpleSpanProcessor
                  (sdktrace.console
                     {| stdouttrace.PrettyPrint := true; stdouttrace.Timestamps := true;
                        stdouttrace.Writer := Stdout |}) ]
         else [ sdktrace.NewBatchSpanProcessor otelExporter ].
Proof.
  intros H.
  destruct (initTracer_success _ _ _ _ _ H)
    as (x & tp & Hx & _ & Ho & Hg & _ & _ & Hsp).
  exists x, tp. subst o'. now repeat split.
Qed.

(** *** Meter and logging set-up *)

Lemma initMeter_inv (env : Environment) (o o' : Othell) (p p' : Process)
    (e : option error) :
  initMeter env o p = (e, o', p') ->
  (exists err, autoexport_NewMetricReader env = Err err
               /\ e = Some (joinError [err]) /\ o' = o /\ p' = p)
  \/ (exists meter mp,
        autoexport_NewMetricReader env = Ok meter /\ e = None
        /\ mp = sdkmetric.NewMeterProvider
                  [sdkmetric.WithReader meter; sdkmetric.WithResource (Resource o)]
        /\ o' = set_MeterProvider (Some mp) o
        /\ p' = set_otelGlobals
                  (otel.SetMeterProvider (Some mp) (otelGlobals p)) p).
Proof.
  unfold initMeter.
  destruct (autoexport_NewMetricReader env) as [m|err]; intros H; inversion H; subst.
  - right. eexists; eexists; repeat split; reflexivity.
  - left. exists err. now repeat split.
Qed.

Lemma initLogging_never_fails (o : Othell) (p : Process) :
  fst (fst (initLogging o p)) = None
  /\ snd (fst (initLogging o p)) = o
  /\ otelGlobals (snd (initLogging o p)) = otelGlobals p
  /\ projectID (snd (initLogging o p)) = projectID p
  /\ metadataLog (snd (initLogging o p)) = metadataLog p.
Proof. now repeat split. Qed.

(** *** The option loop *)

Lemma applyOptions_cons (opt : Option) (opts : list Option) (o : Othell) :
  applyOptions (opt :: opts) o = applyOptions opts (opt o).
Proof. reflexivity. Qed.

Lemma applyOptions_app (l1 l2 : list Option) (o : Othell) :
  applyOptions (l1 ++ l2)%list o = applyOptions l2 (applyOptions l1 o).
Proof. unfold applyOptions. apply fold_left_app. Qed.

Lemma Resource_kept (l : list Setting) (o : Othell) :
  existsb isResourceSetting l = false ->
  Resource (applyOptions (map toOption l) o) = Resource o.
Proof.
  revert o; induction l as [|s l IH]; intros o H; [reflexivity |].
  cbn in H. apply orb_false_iff in H as [Hs Hl].
  cbn [map]. rewrite applyOptions_cons, IH by exact Hl.
  now destruct s.
Qed.

Lemma CollectorEndpoint_kept (l : list Setting) (o : Othell) :
  existsb isCollectorEndpointSetting l = false ->
  CollectorEndpoint (applyOptions (map toOption l) o) = CollectorEndpoint o.
Proof.
  revert o; induction l as [|s l IH]; intros o H; [reflexivity |].
  cbn in H. apply orb_false_iff in H as [Hs Hl].
  cbn [map]. rewrite applyOptions_cons, IH by exact Hl.
  now destruct s.
Qed.

(** *** New *)

(** C1: when no resource option is among the options, New returns a nil
    handle and the "resource is required" error, and the process-wide state
    (registry, propagator, default logger) is the one it was called with. *)
Theorem New_without_resource_fails_before_any_setup
    (env : Environment) (name : string) (settings : list Setting) (p : Process) :
  existsb isResourceSetting settings = false ->
  New env name (map toOption settings) p
  = ((None, Some (errorString "resource is required. Use WithResoure()")), p).
Proof.
  intros H. unfold New.
  now rewrite (Resource_kept _ _ H).
Qed.

(** C5: when the tracer step has succeeded and a later step reports an
    error, New returns that error, and the provider built by the tracer step
    is still the registered tracer provider, the propagator still the
    registered propagator. *)
Theorem New_failure_after_initTracer_keeps_provider
    (env : Environment) (name : string) (opts : list Option) (p : Process)
    (o1 : Othell) (p1 : Process) (err : error) :
  Resource (applyOptions opts zeroOthell) <> None ->
  initTracer env (applyOptions opts zeroOthell) p = (None, o1, p1) ->
  ((exists o2 p2, initMeter env o1 p1 = (Some err, o2, p2))
   \/ (exists o2 p2 o3 p3,
         initMeter env o1 p1 = (None, o2, p2)
         /\ initLogging o2 p2 = (Some err, o3, p3))) ->
  exists o' p' tp,
    New env name opts p = ((Some o', Some err), p')
    /\ TraceProvider o1 = Some tp
    /\ TraceProvider o' = Some tp
    /\ otel.TracerProvider (otelGlobals p') = Some tp
    /\ otel.TextMapPropagator (otelGlobals p') = autoprop_NewTextMapPropagator env.
Proof.
  intros Hres Htr Hlater.
  destruct (initTracer_success _ _ _ _ _ Htr)
    as (x & tp & _ & _ & Ho1 & Hg & _).
  destruct (initTracer_propagator _ _ _ _ _ _ Htr) as (Hprop & _).
  destruct Hlater as [(o2 & p2 & Hm) | (o2 & p2 & o3 & p3 & _ & Hl)].
  - destruct (initMeter_inv _ _ _ _ _ _ Hm)
      as [(e & _ & _ & -> & ->) | (m & mp & _ & He & _)]; [| discriminate].
    exists o1, p1, tp. unfold New.
    destruct (Resource (applyOptions opts zeroOthell)); [| now elim Hres].
    rewrite Htr, Hm. subst o1. now repeat split.
  - discriminate Hl.
Qed.

(** C7: a New that returns no error returns a handle; its tracer is the one
    the registry hands out under the name "<name>-tracer", its meter the one
    under "<name>-meter", and the registered providers are those of the
    handle. *)
Theorem New_success_names_tracer_and_meter
    (env : Environment) (name : string) (opts : list Option) (p p' : Process)
    (r : option Othell) :
  New env name opts p = ((r, None), p') ->
  exists o,
    r = Some o
    /\ Tracer o = Some {| otel.tracerName := name ++ "-tracer";
                          otel.tracerProvider := otel.TracerProvider (otelGlobals p') |}
    /\ Meter o = Some {| otel.meterName := name ++ "-meter";
                         otel.meterProvider := otel.MeterProvider (otelGlobals p') |}
    /\ Tracer o = Some (otel.Tracer (otelGlobals p') (name ++ "-tracer"))
    /\ Meter o = Some (otel.Meter (otelGlobals p') (name ++ "-meter"))
    /\ otel.TracerProvider (otelGlobals p') = TraceProvider o
    /\ otel.MeterProvider (otelGlobals p') = MeterProvider o
    /\ TraceProvider o <> None /\ MeterProvider o <> None.
Proof.
  unfold New.
  destruct (Resource (applyOptions opts zeroOthell)); [| discriminate].
  destruct (initTracer env (applyOptions opts zeroOthell) p) as [[e1 o1] p1] eqn:Htr.
  destruct e1; [discriminate |].
  destruct (initTracer_success _ _ _ _ _ Htr) as (x & tp & _ & _ & Ho1 & Hg & _).
  destruct (initMeter env o1 p1) as [[e2 o2] p2] eqn:Hm.
  destruct (initMeter_inv _ _ _ _ _ _ Hm)
    as [(e & _ & -> & _) | (m & mp & _ & -> & _ & -> & ->)]; [discriminate |].
  cbn. intros H; inversion H; subst; clear H.
  eexists; split; [reflexivity |].
  cbn. rewrite Hg. repeat split; try discriminate.
  unfold otel.Tracer; cbn. now rewrite Hg.
Qed.

(** New does succeed: a resource, a detected exporter and reader, and - with
    the debug flag - a working stdout exporter are all it needs. *)
Lemma New_succeeds (env : Environment) (name : string) (opts : list Option)
    (p : Process) :
  Resource (applyOptions opts zeroOthell) <> None ->
  (exists x, autoexport_NewSpanExporter env = Ok x) ->
  (DebugTracer (applyOptions opts zeroOthell) = true -> stdouttrace_failure env = None) ->
  (exists m, autoexport_NewMetricReader env = Ok m) ->
  exists o p', New env name opts p = ((Some o, None), p').
Proof.
  intros Hres [x Hx] Hdbg [m Hm].
  unfold New, initTracer, initMeter, initLogging, stdouttrace.New.
  destruct (Resource (applyOptions opts zeroOthell)); [| now elim Hres].
  rewrite Hx. destruct (DebugTracer (applyOptions opts zeroOthell)).
  - rewrite (Hdbg eq_refl), Hm. eexists; eexists; reflexivity.
  - rewrite Hm. eexists; eexists; reflexivity.
Qed.

(** *** The project id *)

Lemma init_resolves (env : Environment) (p : Process) :
  projectID (init env p)
  = (if metadata_OnGCE env
     then match metadata_ProjectIDWithContext env with
          | Ok id => id
          | Err _ => "non-gcp"
          end
     else "non-gcp")
  /\ metadataLog (init env p)
     = (metadataLog p
          ++ metadata.OnGCE
               :: (if metadata_OnGCE env then [metadata.ProjectIDWithContext] else []))%list.
Proof.
  unfold init, getProjectID.
  destruct (metadata_OnGCE env); [destruct (metadata_ProjectIDWithContext env) |];
    cbn; split; try reflexivity; now rewrite <- app_assoc.
Qed.

Lemma New_keeps_projectID (env : Environment) (name : string) (opts : list Option)
    (p : Process) :
  projectID (snd (New env name opts p)) = projectID p
  /\ metadataLog (snd (New env name opts p)) = metadataLog p.
Proof.
  unfold New.
  destruct (Resource (applyOptions opts zeroOthell)); [| now split].
  destruct (initTracer env (applyOptions opts zeroOthell) p) as [[e1 o1] p1] eqn:Htr.
  destruct (initTracer_propagator _ _ _ _ _ _ Htr) as (_ & Hid & Hlog & _).
  destruct e1; [now split |].
  destruct (initMeter env o1 p1) as [[e2 o2] p2] eqn:Hm.
  destruct (initMeter_inv _ _ _ _ _ _ Hm)
    as [(e & _ & -> & -> & ->) | (m & mp & _ & -> & _ & -> & ->)]; now split.
Qed.

Lemma step_keeps_projectID (st : Process * Sink) (c : Call) :
  projectID (fst (step st c)) = projectID (fst st)
  /\ metadataLog (fst (step st c)) = metadataLog (fst st).
Proof.
  destruct c as [env name opts | ctx record]; cbn [step fst].
  - apply New_keeps_projectID.
  - now split.
Qed.

Lemma run_keeps_projectID (calls : list Call) (st : Process * Sink) :
  projectID (fst (run calls st)) = projectID (fst st)
  /\ metadataLog (fst (run calls st)) = metadataLog (fst st).
Proof.
  revert st; induction calls as [|c calls IH]; intros st; [now split |].
  cbn [run fold_left]. fold (run calls (step st c)).
  destruct (IH (step st c)) as [-> ->]. apply step_keeps_projectID.
Qed.

(** C6: the project-id query is issued at most once, by init; whatever calls
    into the package follow, the identifier read is the one init stored and
    no further metadata query is issued; init stores "non-gcp" when the
    process is not on GCE or the query fails, and the queried id otherwise. *)
Theorem projectID_resolved_once_then_cached
    (env : Environment) (defaultHandler : ExternalHandler) (calls : list Call)
    (out : Sink) :
  let p1 := init env (loaded defaultHandler) in
  let st := run calls (p1, out) in
  length (filter (metadata.Query_eqb metadata.ProjectIDWithContext) (metadataLog p1)) <= 1
  /\ projectID (fst st) = projectID p1
  /\ metadataLog (fst st) = metadataLog p1
  /\ ((metadata_OnGCE env = false
       \/ exists err, metadata_ProjectIDWithContext env = Err err) ->
      projectID p1 = "non-gcp")
  /\ (forall id, metadata_OnGCE env = true ->
                 metadata_ProjectIDWithContext env = Ok id -> projectID p1 = id).
Proof.
  intros p1 st.
  destruct (init_resolves env (loaded defaultHandler)) as [Hid Hlog].
  destruct (run_keeps_projectID calls (p1, out)) as [Hk1 Hk2].
  fold p1 in Hid, Hlog. fold st in Hk1, Hk2. cbn [fst] in Hk1, Hk2.
  repeat split; try assumption.
  - rewrite Hlog. cbn. destruct (metadata_OnGCE env); cbn; lia.
  - rewrite Hid. intros [-> | [err ->]]; [reflexivity |].
    now destruct (metadata_OnGCE env).
  - intros id Hg Hq. now rewrite Hid, Hg, Hq.
Qed.

(** *** Order of the options *)

Lemma settings_commute (a b : Setting) (o : Othell) :
  sameField a b = false ->
  toOption a (toOption b o) = toOption b (toOption a o).
Proof. destruct a, b; cbn; intros H; try discriminate; reflexivity. Qed.

Lemma writesAgree_tail (a : Setting) (l : list Setting) :
  writesAgree (a :: l) -> writesAgree l.
Proof. intros H x y Hx Hy. apply H; now right. Qed.

Lemma writesAgree_Permutation (l l' : list Setting) :
  Permutation l l' -> writesAgree l -> writesAgree l'.
Proof.
  intros HP H x y Hx Hy.
  apply H; eapply Permutation_in; try eassumption; now apply Permutation_sym.
Qed.

Lemma applyOptions_Permutation (l l' : list Setting) :
  Permutation l l' -> writesAgree l ->
  forall o, applyOptions (map toOption l') o = applyOptions (map toOption l) o.
Proof.
  induction 1 as [| x l l' HP IH | x y l | l l' l'' HP1 IH1 HP2 IH2]; intros Hag o.
  - reflexivity.
  - cbn [map]. rewrite !applyOptions_cons.
    apply IH. eapply writesAgree_tail; eassumption.
  - cbn [map]. rewrite !applyOptions_cons.
    destruct (sameField x y) eqn:Hf.
    + assert (x = y) as -> by (apply Hag; cbn; auto).
      reflexivity.
    + now rewrite (settings_commute x y o Hf).
  - rewrite IH2, IH1; auto.
    eapply writesAgree_Permutation; eassumption.
Qed.

Lemma DebugTracer_stays (l : list Setting) (o : Othell) :
  DebugTracer o = true -> DebugTracer (applyOptions (map toOption l) o) = true.
Proof.
  revert o; induction l as [|s l IH]; intros o H; [exact H |].
  cbn [map]. rewrite applyOptions_cons. apply IH. now destruct s.
Qed.

(** C8, as the code has it: the options are applied one after the other, so
    a permutation of the options gives the same struct whenever no field is
    written with two different values; the endpoint and the resource are
    those of the last option that writes them, and the debug flag is set as
    soon as one option sets it. *)
Theorem applyOptions_order
    (settings settings' : list Setting) (o : Othell) :
  (Permutation settings settings' -> writesAgree settings ->
     applyOptions (map toOption settings') o = applyOptions (map toOption settings) o)
  /\ (forall before after endpoint,
        settings = (before ++ CollectorEndpointSetting endpoint :: after)%list ->
        existsb isCollectorEndpointSetting after = false ->
        CollectorEndpoint (applyOptions (map toOption settings) o) = endpoint)
  /\ (forall before after res,
        settings = (before ++ ResourceSetting res :: after)%list ->
        existsb isResourceSetting after = false ->
        Resource (applyOptions (map toOption settings) o) = res)
  /\ (In DebugTracerSetting settings ->
        DebugTracer (applyOptions (map toOption settings) o) = true).
Proof.
  split; [| split; [| split]].
  - intros HP Hag. now apply applyOptions_Permutation.
  - intros before after endpoint -> Hafter.
    rewrite map_app, applyOptions_app. cbn [map]. rewrite applyOptions_cons.
    now rewrite CollectorEndpoint_kept.
  - intros before after res -> Hafter.
    rewrite map_app, applyOptions_app. cbn [map]. rewrite applyOptions_cons.
    now rewrite Resource_kept.
  - intros Hin. apply in_split in Hin as (before & after & ->).
    rewrite map_app, applyOptions_app. cbn [map]. rewrite applyOptions_cons.
    now apply DebugTracer_stays.
Qed.

(** *** The collector endpoint *)

Lemma erase_endpoint_filter (l : list Setting) (o1 o2 : Othell) :
  set_CollectorEndpoint "" o1 = set_CollectorEndpoint "" o2 ->
  set_CollectorEndpoint "" (applyOptions (map toOption l) o1)
  = set_CollectorEndpoint ""
      (applyOptions (map toOption (filter notCollectorEndpointSetting l)) o2).
Proof.
  revert o1 o2; induction l as [|s l IH]; intros o1 o2 H; [exact H |].
  cbn [map filter]. rewrite applyOptions_cons.
  destruct s as [endpoint | res |]; cbn [notCollectorEndpointSetting
    isCollectorEndpointSetting negb map]; rewrite ?applyOptions_cons; apply IH.
  - exact H.
  - cbn [toOption]. unfold WithResource, set_Resource, set_CollectorEndpoint in *.
    cbn in *. now inversion H.
  - cbn [toOption]. unfold WithDebugTracer, set_DebugTracer, set_CollectorEndpoint in *.
    cbn in *. now inversion H.
Qed.

Lemma New_ignores_endpoint (env : Environment) (name : string) (opts1 opts2 : list Option)
    (p : Process) :
  set_CollectorEndpoint "" (applyOptions opts1 zeroOthell)
  = set_CollectorEndpoint "" (applyOptions opts2 zeroOthell) ->
  snd (New env name opts1 p) = snd (New env name opts2 p)
  /\ snd (fst (New env name opts1 p)) = snd (fst (New env name opts2 p))
  /\ option_map (set_CollectorEndpoint "") (fst (fst (New env name opts1 p)))
     = option_map (set_CollectorEndpoint "") (fst (fst (New env name opts2 p))).
Proof.
  unfold New.
  destruct (applyOptions opts1 zeroOthell) as [c1 tp1 mp1 t1 m1 r1 d1].
  destruct (applyOptions opts2 zeroOthell) as [c2 tp2 mp2 t2 m2 r2 d2].
  unfold set_CollectorEndpoint; cbn. intros H; inversion H; subst; clear H.
  destruct r2; [| now repeat split].
  unfold initTracer, initMeter, initLogging, stdouttrace.New; cbn.
  destruct (autoexport_NewSpanExporter env); [| now repeat split].
  destruct d2; cbn.
  - destruct (stdouttrace_failure env); [now repeat split |].
    destruct (autoexport_NewMetricReader env); now repeat split.
  - destruct (autoexport_NewMetricReader env); now repeat split.
Qed.

(** C10: WithCollectorEndpoint writes the CollectorEndpoint field and no
    other; and two calls of New whose options differ only in their
    collector-endpoint options return the same error, leave the same
    process-wide state, and return handles equal in every other field. *)
Theorem CollectorEndpoint_is_only_stored
    (env : Environment) (name : string) (l1 l2 : list Setting) (p : Process) :
  filter notCollectorEndpointSetting l1 = filter notCollectorEndpointSetting l2 ->
  let r1 := New env name (map toOption l1) p in
  let r2 := New env name (map toOption l2) p in
  snd r1 = snd r2
  /\ snd (fst r1) = snd (fst r2)
  /\ option_map (set_CollectorEndpoint "") (fst (fst r1))
     = option_map (set_CollectorEndpoint "") (fst (fst r2))
  /\ (forall endpoint o,
        WithCollectorEndpoint endpoint o
        = {| CollectorEndpoint := endpoint; TraceProvider := TraceProvider o;
             MeterProvider := MeterProvider o; Tracer := Tracer o; Meter := Meter o;
             Resource := Resource o; DebugTracer := DebugTracer o |}).
Proof.
  intros Hf r1 r2.
  assert (set_CollectorEndpoint "" (applyOptions (map toOption l1) zeroOthell)
          = set_CollectorEndpoint "" (applyOptions (map toOption l2) zeroOthell)) as Heq.
  { rewrite (erase_endpoint_filter l1 _ zeroOthell eq_refl).
    rewrite (erase_endpoint_filter l2 _ zeroOthell eq_refl).
    now rewrite Hf. }
  destruct (New_ignores_endpoint env name _ _ p Heq) as (Hp & He & Ho).
  now repeat split.
Qed.

(** ** Further properties of the package *)

(** *** New: which step fails, and what it leaves behind *)

(** X1: when the resource is set and the tracer step fails - the span
    exporter cannot be detected, or the debug flag is set and the stdout
    exporter cannot be built - New returns the handle exactly as the options
    configured it together with the error (the detection error as it is, the
    stdout error wrapped), and the process-wide state differs from the one
    before the call only in the propagator. *)
Theorem New_tracer_failure
    (env : Environment) (name : string) (opts : list Option) (p : Process)
    (e err : error) :
  Resource (applyOptions opts zeroOthell) <> None ->
  ((autoexport_NewSpanExporter env = Err e /\ err = e)
   \/ ((exists x, autoexport_NewSpanExporter env = Ok x)
       /\ DebugTracer (applyOptions opts zeroOthell) = true
       /\ stdouttrace_failure env = Some e
       /\ err = wrapError "failed to create console exporter: %w" e)) ->
  New env name opts p
  = ((Some (applyOptions opts zeroOthell), Some err),
     set_otelGlobals
       (otel.SetTextMapPropagator (autoprop_NewTextMapPropagator env) (otelGlobals p)) p).
Proof.
  intros Hres Hfail. unfold New.
  destruct (Resource (applyOptions opts zeroOthell)); [| now elim Hres].
  unfold initTracer.
  destruct Hfail as [[Hx ->] | ([x Hx] & Hd & Hf & ->)]; rewrite Hx.
  - reflexivity.
  - rewrite Hd. unfold stdouttrace.New. now rewrite Hf.
Qed.

(** X2: New returns a nil handle exactly when the resource is nil after the
    options have been applied - whether no option set it or the last one
    set it to nil; it then returns the "resource is required" error and
    leaves the process-wide state as it was. *)
Theorem New_nil_handle_iff_no_resource
    (env : Environment) (name : string) (opts : list Option) (p : Process) :
  (fst (fst (New env name opts p)) = None <-> Resource (applyOptions opts zeroOthell) = None)
  /\ (Resource (applyOptions opts zeroOthell) = None ->
      New env name opts p
      = ((None, Some (errorString "resource is required. Use WithResoure()")), p)).
Proof.
  unfold New.
  destruct (Resource (applyOptions opts zeroOthell)) as [r|].
  - split; [| discriminate]. split; [| discriminate].
    destruct (initTracer env (applyOptions opts zeroOthell) p) as [[[e1|] o1] p1];
      [discriminate |].
    destruct (initMeter env o1 p1) as [[[e2|] o2] p2]; discriminate.
  - now repeat split.
Qed.

(** X3: New returns a nil error exactly when the resource is set, a span
    exporter and a metric reader are detected, and - if the debug flag is
    set - the stdout exporter can be built. *)
Theorem New_no_error_iff
    (env : Environment) (name : string) (opts : list Option) (p : Process) :
  snd (fst (New env name opts p)) = None
  <-> (Resource (applyOptions opts zeroOthell) <> None
       /\ (exists x, autoexport_NewSpanExporter env = Ok x)
       /\ (DebugTracer (applyOptions opts zeroOthell) = true ->
           stdouttrace_failure env = None)
       /\ (exists m, autoexport_NewMetricReader env = Ok m)).
Proof.
  split.
  - unfold New, initTracer, initMeter, initLogging, stdouttrace.New.
    destruct (Resource (applyOptions opts zeroOthell)); [| discriminate].
    destruct (autoexport_NewSpanExporter env) as [x|ex]; [| discriminate].
    destruct (DebugTracer (applyOptions opts zeroOthell)).
    + destruct (stdouttrace_failure env); [discriminate |].
      destruct (autoexport_NewMetricReader env) as [m|em]; [| discriminate].
      intros _. repeat split; eauto; discriminate.
    + destruct (autoexport_NewMetricReader env) as [m|em]; [| discriminate].
      intros _. repeat split; eauto; discriminate.
  - intros (Hres & Hx & Hd & Hm).
    destruct (New_succeeds env name opts p Hres Hx Hd Hm) as (o & p' & ->).
    reflexivity.
Qed.

(** X4: when the tracer step has succeeded and no metric reader can be
    detected, New returns the reader's error joined by errors.Join; no meter
    provider is registered or stored, the default logger is not replaced,
    and the handle's tracer and meter stay unset (as the options left
    them). *)
Theorem New_meter_failure
    (env : Environment) (name : string) (opts : list Option) (p : Process)
    (o1 : Othell) (p1 : Process) (e : error) :
  Resource (applyOptions opts zeroOthell) <> None ->
  initTracer env (applyOptions opts zeroOthell) p = (None, o1, p1) ->
  autoexport_NewMetricReader env = Err e ->
  New env name opts p = ((Some o1, Some (joinError [e])), p1)
  /\ otel.MeterProvider (otelGlobals p1) = otel.MeterProvider (otelGlobals p)
  /\ slogDefault p1 = slogDefault p
  /\ MeterProvider o1 = MeterProvider (applyOptions opts zeroOthell)
  /\ Tracer o1 = Tracer (applyOptions opts zeroOthell)
  /\ Meter o1 = Meter (applyOptions opts zeroOthell).
Proof.
  intros Hres Htr Hm.
  destruct (initTracer_propagator _ _ _ _ _ _ Htr) as (_ & _ & _ & Hlog & Hmp).
  destruct (initTracer_success _ _ _ _ _ Htr) as (x & tp & _ & _ & -> & _).
  split; [| now repeat split].
  unfold New.
  destruct (Resource (applyOptions opts zeroOthell)); [| now elim Hres].
  rewrite Htr. unfold initMeter. now rewrite Hm.
Qed.

(** X5: on success the tracer provider samples always, the meter provider
    has the detected reader as its only reader, each provider holds the
    merge of the environment's resource with the resource the options
    supplied (what WithResource stores), and the endpoint, resource and
    debug flag of the handle are those the options configured. *)
Theorem New_success_providers
    (env : Environment) (name : string) (opts : list Option) (p p' : Process)
    (o : Othell) :
  New env name opts p = ((Some o, None), p') ->
  exists tp mp m,
    autoexport_NewMetricReader env = Ok m
    /\ TraceProvider o = Some tp
    /\ sdktrace.sampler tp = sdktrace.AlwaysSample
    /\ sdktrace.res tp = resource.MergeEnvironment (Resource (applyOptions opts zeroOthell))
    /\ MeterProvider o = Some mp
    /\ sdkmetric.readers mp = [m]
    /\ sdkmetric.res mp = resource.MergeEnvironment (Resource (applyOptions opts zeroOthell))
    /\ Resource (applyOptions opts zeroOthell) <> None
    /\ CollectorEndpoint o = CollectorEndpoint (applyOptions opts zeroOthell)
    /\ Resource o = Resource (applyOptions opts zeroOthell)
    /\ DebugTracer o = DebugTracer (applyOptions opts zeroOthell).
Proof.
  unfold New.
  destruct (Resource (applyOptions opts zeroOthell)) as [r|] eqn:Hres; [| discriminate].
  destruct (initTracer env (applyOptions opts zeroOthell) p) as [[e1 o1] p1] eqn:Htr.
  destruct e1; [discriminate |].
  destruct (initTracer_success _ _ _ _ _ Htr)
    as (x & tp & _ & _ & -> & _ & Hs & Hr & _).
  destruct (initMeter env _ p1) as [[e2 o2] p2] eqn:Hm.
  destruct (initMeter_inv _ _ _ _ _ _ Hm)
    as [(e & _ & -> & _) | (m & mp & Hrd & -> & -> & -> & ->)]; [discriminate |].
  cbn. intros H; inversion H; subst; clear H.
  exists tp, (sdkmetric.NewMeterProvider
                [sdkmetric.WithReader m;
                 sdkmetric.WithResource
                   (Resource (set_TraceProvider (Some tp) (applyOptions opts zeroOthell)))]), m.
  cbn. rewrite Hres in *. repeat split; try assumption; try discriminate.
Qed.

(** *** New and the default logger *)

Lemma New_slogDefault (env : Environment) (name : string) (opts : list Option)
    (p : Process) :
  slogDefault (snd (New env name opts p))
  = match snd (fst (New env name opts p)) with
    | None =>
        {| handler :=
             spanContextLogHandler
               (external (NewJSONHandler Stdout
                            {| slog.AddSource := false;
                               slog.ReplaceAttr := Some replacer |})) |}
    | Some _ => slogDefault p
    end.
Proof.
  unfold New.
  destruct (Resource (applyOptions opts zeroOthell)); [| reflexivity].
  destruct (initTracer env (applyOptions opts zeroOthell) p) as [[e1 o1] p1] eqn:Htr.
  destruct (initTracer_propagator _ _ _ _ _ _ Htr) as (_ & _ & _ & Hlog & _).
  destruct e1; [exact Hlog |].
  destruct (initMeter env o1 p1) as [[e2 o2] p2] eqn:Hm.
  destruct (initMeter_inv _ _ _ _ _ _ Hm)
    as [(e & _ & -> & -> & ->) | (m & mp & _ & -> & _ & -> & ->)]; [exact Hlog |].
  reflexivity.
Qed.

(** X6: after a New that returned no error, the handler installed in the
    default logger, handed a record in good order whose slice has no
    written cell past its end, passes it on to the JSON handler on standard
    output (the one built with replacer as its ReplaceAttr) - with exactly
    the three correlation attributes appended, the project id in the trace
    path, when the context carries a valid span context, and as it is
    otherwise. *)
Theorem New_then_log
    (env : Environment) (name : string) (opts : list Option) (p p' : Process)
    (r : option Othell) (ctx : context.Context) (record : slog.Record_)
    (heap : slog.Heap) (out : Output) :
  New env name opts p = ((r, None), p') ->
  slog.wfRecord heap record -> slog.unwritten heap (slog.back record) ->
  exists record' heap',
    Handle p' (handler (slogDefault p')) ctx record (heap, out)
    = externalHandle
        (NewJSONHandler Stdout
           {| slog.AddSource := false; slog.ReplaceAttr := Some replacer |})
        ctx record' (heap', out)
    /\ slog.Time record' = slog.Time record
    /\ slog.Message record' = slog.Message record
    /\ slog.Level_ record' = slog.Level_ record
    /\ slog.PC record' = slog.PC record
    /\ slog.Attrs heap' record'
       = (slog.Attrs heap record
            ++ (if trace.IsValid (SpanContextFromContext ctx)
                then
                  [ {| slog.Key := "logging.googleapis.com/trace";
                       slog.Val :=
                         slog.StringValue
                           ("projects/" ++ projectID p ++ "/traces/"
                              ++ trace.TraceID_String
                                   (trace.traceID (SpanContextFromContext ctx))) |};
                    {| slog.Key := "logging.googleapis.com/spanId";
                       slog.Val :=
                         slog.KindAny
                           (slog.any_SpanID (trace.spanID (SpanContextFromContext ctx))) |};
                    {| slog.Key := "logging.googleapis.com/trace_sampled";
                       slog.Val :=
                         slog.BoolValue
                           (trace.IsSampled
                              (trace.traceFlags (SpanContextFromContext ctx))) |} ]
                else []))%list
    /\ (trace.IsValid (SpanContextFromContext ctx) = false ->
        record' = record /\ heap' = heap).
Proof.
  intros HN Hwf Hun.
  pose proof (New_slogDefault env name opts p) as Hlog.
  destruct (New_keeps_projectID env name opts p) as [Hid _].
  rewrite HN in Hlog, Hid. cbn [fst snd] in Hlog, Hid.
  rewrite Hlog. cbn [handler Handle].
  destruct (spanContextLogHandler_Handle_spec p'
              (externalHandle
                 (NewJSONHandler Stdout
                    {| slog.AddSource := false; slog.ReplaceAttr := Some replacer |}))
              ctx record heap out Hwf Hun)
    as (record' & heap' & HH & HT & HM & HL & HP & HA & _ & _ & Hinv).
  exists record', heap'. rewrite Hid in HA.
  split; [exact HH |]. repeat (split; [assumption |]). exact Hinv.
Qed.

(** X7: what New returns does not depend on what was registered before the
    call, and after a call that returned no error neither does the
    registry nor the default logger: a second call replaces the first. *)
Theorem New_replaces_earlier_registration
    (env : Environment) (name : string) (opts : list Option) (p1 p2 : Process) :
  fst (New env name opts p1) = fst (New env name opts p2)
  /\ (snd (fst (New env name opts p1)) = None ->
      otelGlobals (snd (New env name opts p1)) = otelGlobals (snd (New env name opts p2))
      /\ slogDefault (snd (New env name opts p1))
         = slogDefault (snd (New env name opts p2))).
Proof.
  unfold New, initTracer, initMeter, initLogging, stdouttrace.New.
  destruct (Resource (applyOptions opts zeroOthell)); [| split; [reflexivity | discriminate]].
  destruct (autoexport_NewSpanExporter env); [| split; [reflexivity | discriminate]].
  destruct (DebugTracer (applyOptions opts zeroOthell)).
  - destruct (stdouttrace_failure env); [split; [reflexivity | discriminate] |].
    destruct (autoexport_NewMetricReader env);
      [now repeat split | split; [reflexivity | discriminate]].
  - destruct (autoexport_NewMetricReader env);
      [now repeat split | split; [reflexivity | discriminate]].
Qed.

(** X8: in a process that starts with the default handler [d] and then only
    calls New and logs, the default logger is at every moment either [d] or
    one span-context decorator directly around a JSON handler: repeated
    calls of New never stack decorators. *)
Theorem default_logger_never_nested
    (env : Environment) (d : ExternalHandler) (calls : list Call) (out : Sink) :
  let p := fst (run calls (init env (loaded d), out)) in
  handler (slogDefault p) = external d
  \/ handler (slogDefault p)
     = spanContextLogHandler
         (external (NewJSONHandler Stdout
                      {| slog.AddSource := false; slog.ReplaceAttr := Some replacer |})).
Proof.
  cbv zeta.
  assert (forall st,
            (handler (slogDefault (fst st)) = external d
             \/ handler (slogDefault (fst st))
                = spanContextLogHandler
                    (external (NewJSONHandler Stdout
                                 {| slog.AddSource := false;
                                    slog.ReplaceAttr := Some replacer |}))) ->
            handler (slogDefault (fst (run calls st))) = external d
            \/ handler (slogDefault (fst (run calls st)))
               = spanContextLogHandler
                   (external (NewJSONHandler Stdout
                                {| slog.AddSource := false;
                                   slog.ReplaceAttr := Some replacer |}))) as Hinv.
  { induction calls as [|c calls IH]; intros st Hst; [exact Hst |].
    cbn [run fold_left]. fold (run calls (step st c)). apply IH.
    destruct c as [env' name opts | ctx record]; cbn [step fst]; [| exact Hst].
    rewrite New_slogDefault.
    destruct (snd (fst (New env' name opts (fst st)))); [exact Hst | now right]. }
  apply Hinv. left.
  unfold init, getProjectID.
  destruct (metadata_OnGCE env); [destruct (metadata_ProjectIDWithContext env) |];
    reflexivity.
Qed.

(** *** The attribute rewriter, again *)

(** X9: the rewriter is idempotent: an attribute it returned is returned
    unchanged when rewritten again, whatever the group path. *)
Theorem replacer_idempotent
    (groups groups' : list string) (a a' : slog.Attr) :
  replacer groups a = Return a' -> replacer groups' a' = Return a'.
Proof.
  destruct a as [k v]. unfold replacer at 1. cbn [slog.Key slog.Val].
  destruct (k =? slog.LevelKey) eqn:Hl.
  - destruct (slog.assertLevel (slog.Any_ v)) as [level|]; [| discriminate].
    destruct (level =? slog.LevelWarn)%Z; intros H; inversion H; reflexivity.
  - destruct (k =? slog.TimeKey) eqn:Ht; [intros H; inversion H; reflexivity |].
    destruct (k =? slog.MessageKey) eqn:Hm; intros H; inversion H; subst.
    + reflexivity.
    + unfold replacer. cbn [slog.Key]. now rewrite Hl, Ht, Hm.
Qed.

(** X10: the rewriter panics exactly on an attribute whose key is the level
    key and whose value does not hold a slog.Level; on every other
    attribute it returns. *)
Theorem replacer_panics_iff (groups : list string) (a : slog.Attr) :
  replacer groups a = Panic
  <-> (slog.Key a = slog.LevelKey /\ forall l, slog.Any_ (slog.Val a) <> slog.any_Level l).
Proof.
  destruct a as [k v]. unfold replacer. cbn [slog.Key slog.Val].
  destruct (k =? slog.LevelKey) eqn:Hl.
  - apply String.eqb_eq in Hl.
    destruct (slog.Any_ v) eqn:Hv; cbn;
      try (split; [intros _; split; [exact Hl | intros l'; discriminate]
                  | reflexivity]).
    split.
    + destruct (l =? slog.LevelWarn)%Z; discriminate.
    + intros [_ H]. now elim (H l).
  - apply String.eqb_neq in Hl.
    split; [| intros [H _]; now elim Hl].
    destruct (k =? slog.TimeKey); [discriminate |].
    destruct (k =? slog.MessageKey); discriminate.
Qed.

(** *** The decorator without a usable span *)

(** X11: when the context carries no span, or a span whose trace id or span
    id is all zeros (sampled or not), the decorator hands the record to the
    wrapped handler as it came. *)
Theorem Handle_without_usable_span
    (p : Process) (h : Handler) (ctx : context.Context) (record : slog.Record_)
    (out : Sink) :
  (context.currentSpan ctx = None
   \/ exists sc, context.currentSpan ctx = Some sc
                 /\ (trace.allZero (trace.traceID sc) = true
                     \/ trace.allZero (trace.spanID sc) = true)) ->
  Handle p (spanContextLogHandler h) ctx record out = Handle p h ctx record out.
Proof.
  intros Hctx. cbn [Handle]. unfold spanContextLogHandler_Handle.
  assert (trace.IsValid (SpanContextFromContext ctx) = false) as ->; [| reflexivity].
  unfold SpanContextFromContext.
  destruct Hctx as [-> | (sc & -> & [Hz | Hz])]; [reflexivity | |];
    unfold trace.IsValid, trace.TraceID_IsValid, trace.SpanID_IsValid; rewrite Hz;
    [reflexivity | apply andb_false_r].
Qed.

(** *** init *)

(** X12: init asks the metadata server whether the process runs on GCE, and
    for the project id only when it does; it changes neither the registry
    nor the default logger. *)
Theorem init_queries_project_id_only_on_GCE (env : Environment) (p : Process) :
  metadataLog (init env p)
  = (metadataLog p
       ++ (if metadata_OnGCE env
           then [metadata.OnGCE; metadata.ProjectIDWithContext]
           else [metadata.OnGCE]))%list
  /\ otelGlobals (init env p) = otelGlobals p
  /\ slogDefault (init env p) = slogDefault p.
Proof.
  destruct (init_resolves env p) as [_ Hlog].
  split.
  - rewrite Hlog. now destruct (metadata_OnGCE env).
  - unfold init, getProjectID.
    destruct (metadata_OnGCE env); [destruct (metadata_ProjectIDWithContext env) |];
      now split.
Qed.

(** *** The option loop, again *)

Lemma Othell_ext (a b : Othell) :
  CollectorEndpoint a = CollectorEndpoint b -> TraceProvider a = TraceProvider b ->
  MeterProvider a = MeterProvider b -> Tracer a = Tracer b -> Meter a = Meter b ->
  Resource a = Resource b -> DebugTracer a = DebugTracer b -> a = b.
Proof. destruct a, b; cbn; intros; subst; reflexivity. Qed.

Lemma settings_leave_runtime_fields (l : list Setting) (o : Othell) :
  TraceProvider (applyOptions (map toOption l) o) = TraceProvider o
  /\ MeterProvider (applyOptions (map toOption l) o) = MeterProvider o
  /\ Tracer (applyOptions (map toOption l) o) = Tracer o
  /\ Meter (applyOptions (map toOption l) o) = Meter o.
Proof.
  revert o; induction l as [|s l IH]; intros o; [now repeat split |].
  cbn [map]. rewrite applyOptions_cons.
  destruct (IH (toOption s o)) as (-> & -> & -> & ->). now destruct s.
Qed.

Lemma CollectorEndpoint_overwritten (l : list Setting) (o1 o2 : Othell) :
  existsb isCollectorEndpointSetting l = true ->
  CollectorEndpoint (applyOptions (map toOption l) o1)
  = CollectorEndpoint (applyOptions (map toOption l) o2).
Proof.
  revert o1 o2; induction l as [|s l IH]; intros o1 o2 H; [discriminate |].
  cbn [map]. rewrite !applyOptions_cons.
  destruct (existsb isCollectorEndpointSetting l) eqn:Hl; [now apply IH |].
  rewrite !CollectorEndpoint_kept by exact Hl.
  cbn in H. rewrite Hl, orb_false_r in H. now destruct s.
Qed.

Lemma Resource_overwritten (l : list Setting) (o1 o2 : Othell) :
  existsb isResourceSetting l = true ->
  Resource (applyOptions (map toOption l) o1) = Resource (applyOptions (map toOption l) o2).
Proof.
  revert o1 o2; induction l as [|s l IH]; intros o1 o2 H; [discriminate |].
  cbn [map]. rewrite !applyOptions_cons.
  destruct (existsb isResourceSetting l) eqn:Hl; [now apply IH |].
  rewrite !Resource_kept by exact Hl.
  cbn in H. rewrite Hl, orb_false_r in H. now destruct s.
Qed.

Lemma DebugTracer_applyOptions (l : list Setting) (o : Othell) :
  DebugTracer (applyOptions (map toOption l) o)
  = DebugTracer o || existsb (sameField DebugTracerSetting) l.
Proof.
  revert o; induction l as [|s l IH]; intros o; [now rewrite orb_false_r |].
  cbn [map existsb]. rewrite applyOptions_cons, IH.
  destruct s; cbn; [reflexivity | reflexivity |].
  now rewrite orb_true_r.
Qed.

(** X13: applying a list of the package's options twice in a row gives the
    struct that applying it once gives, and these options never write the
    provider, tracer and meter fields. *)
Theorem applyOptions_twice (l : list Setting) (o : Othell) :
  applyOptions (map toOption (l ++ l)%list) o = applyOptions (map toOption l) o
  /\ TraceProvider (applyOptions (map toOption l) o) = TraceProvider o
  /\ MeterProvider (applyOptions (map toOption l) o) = MeterProvider o
  /\ Tracer (applyOptions (map toOption l) o) = Tracer o
  /\ Meter (applyOptions (map toOption l) o) = Meter o.
Proof.
  split; [| apply settings_leave_runtime_fields].
  rewrite map_app, applyOptions_app.
  destruct (settings_leave_runtime_fields l (applyOptions (map toOption l) o))
    as (Htp & Hmp & Ht & Hm).
  apply Othell_ext; try assumption.
  - destruct (existsb isCollectorEndpointSetting l) eqn:Hl.
    + now apply CollectorEndpoint_overwritten.
    + now rewrite CollectorEndpoint_kept.
  - destruct (existsb isResourceSetting l) eqn:Hl.
    + now apply Resource_overwritten.
    + now rewrite Resource_kept.
  - rewrite !DebugTracer_applyOptions.
    now destruct (DebugTracer o), (existsb (sameField DebugTracerSetting) l).
Qed.

(** *** The decorator on a record no other copy has written past *)

(** X15: under a valid span context, a record in good order whose slice has
    no written cell past its end is handed to the wrapped handler with the
    time, message, level and pc it came with and with exactly three
    attributes after those it had: the trace path
    "projects/<projectID>/traces/<trace id in hex>", the span id and the
    sampled flag. *)
Theorem Handle_appends_three_to_unshared_record
    (p : Process) (h : Handler) (ctx : context.Context) (record : slog.Record_)
    (heap : slog.Heap) (out : Output) :
  slog.wfRecord heap record -> slog.unwritten heap (slog.back record) ->
  trace.IsValid (SpanContextFromContext ctx) = true ->
  exists record' heap',
    Handle p (spanContextLogHandler h) ctx record (heap, out)
    = Handle p h ctx record' (heap', out)
    /\ slog.Time record' = slog.Time record
    /\ slog.Message record' = slog.Message record
    /\ slog.Level_ record' = slog.Level_ record
    /\ slog.PC record' = slog.PC record
    /\ slog.Attrs heap' record'
       = (slog.Attrs heap record
            ++ [ {| slog.Key := "logging.googleapis.com/trace";
                    slog.Val :=
                      slog.StringValue
                        ("projects/" ++ projectID p ++ "/traces/"
                           ++ trace.TraceID_String
                                (trace.traceID (SpanContextFromContext ctx))) |};
                 {| slog.Key := "logging.googleapis.com/spanId";
                    slog.Val :=
                      slog.KindAny
                        (slog.any_SpanID (trace.spanID (SpanContextFromContext ctx))) |};
                 {| slog.Key := "logging.googleapis.com/trace_sampled";
                    slog.Val :=
                      slog.BoolValue
                        (trace.IsSampled
                           (trace.traceFlags (SpanContextFromContext ctx))) |} ])%list.
Proof.
  intros Hwf Hun Hv. cbn [Handle].
  destruct (spanContextLogHandler_Handle_spec p (Handle p h) ctx record heap out Hwf Hun)
    as (record' & heap' & HH & HT & HM & HL & HP & HA & _).
  exists record', heap'. rewrite Hv in HA. now repeat split.
Qed.

End Othell.

Arguments external {ExternalHandler} h.
Arguments spanContextLogHandler {ExternalHandler} Handler_.
Arguments handlerWithSpanContext {ExternalHandler} handler.
Arguments projectID {ExternalHandler} p.
Arguments otelGlobals {ExternalHandler} p.
Arguments slogDefault {ExternalHandler} p.
Arguments metadataLog {ExternalHandler} p.
Arguments handler {ExternalHandler} l.
Arguments getProjectID {ExternalHandler} env p.
Arguments init {ExternalHandler} env p.
Arguments initTracer {ExternalHandler} env o p.
Arguments initMeter {ExternalHandler} env o p.
Arguments initLogging {ExternalHandler} NewJSONHandler o p.
Arguments New {ExternalHandler} NewJSONHandler env name opts p.
Arguments Handle {Output ExternalHandler} externalHandle growSlack p h _ _ _.
Arguments step {Output ExternalHandler} externalHandle NewJSONHandler growSlack st c.
Arguments run {Output ExternalHandler} externalHandle NewJSONHandler growSlack calls st.
Arguments loaded {ExternalHandler} defaultHandler.

(** ** The properties on the sample values *)

Lemma New_without_resource_sample :
  existsb isResourceSetting
    [CollectorEndpointSetting "collector:4317"; DebugTracerSetting] = false
  /\ New Sample.newHandler Sample.laptop "checkout"
       (map toOption [CollectorEndpointSetting "collector:4317"; DebugTracerSetting])
       (loaded tt)
     = ((None, Some (errorString "resource is required. Use WithResoure()")), loaded tt).
Proof.
  split; [reflexivity |].
  apply New_without_resource_fails_before_any_setup. reflexivity.
Defined.

Lemma replacer_panics_sample :
  (forall l, slog.Any_ (slog.StringValue "high") <> slog.any_Level l)
  /\ replacer [] {| slog.Key := slog.LevelKey; slog.Val := slog.StringValue "high" |} = Panic.
Proof.
  split; [intros l; discriminate |].
  apply replacer_panics_on_level_key_without_Level. intros l; discriminate.
Defined.


Lemma initTracer_sample :
  initTracer Sample.laptop (WithDebugTracer (WithResource (Some Sample.res) zeroOthell))
    (loaded tt)
  = (None,
     snd (fst (initTracer Sample.laptop
                 (WithDebugTracer (WithResource (Some Sample.res) zeroOthell)) (loaded tt))),
     snd (initTracer Sample.laptop
            (WithDebugTracer (WithResource (Some Sample.res) zeroOthell)) (loaded tt)))
  /\ exists otelExporter tp,
       autoexport_NewSpanExporter Sample.laptop = Ok otelExporter
       /\ TraceProvider
            (snd (fst (initTracer Sample.laptop
                         (WithDebugTracer (WithResource (Some Sample.res) zeroOthell))
                         (loaded tt)))) = Some tp
       /\ otel.TracerProvider
            (otelGlobals
               (snd (initTracer Sample.laptop
                       (WithDebugTracer (WithResource (Some Sample.res) zeroOthell))
                       (loaded tt)))) = Some tp
       /\ sdktrace.spanProcessors tp
          = [ sdktrace.NewBatchSpanProcessor otelExporter;
              sdktrace.NewSimpleSpanProcessor
                (sdktrace.console
                   {| stdouttrace.PrettyPrint := true; stdouttrace.Timestamps := true;
                      stdouttrace.Writer := Stdout |}) ].
Proof.
  split; [reflexivity |].
  apply (initTracer_span_processors unit Sample.laptop
           (WithDebugTracer (WithResource (Some Sample.res) zeroOthell)) _ (loaded tt) _).
  reflexivity.
Defined.

Lemma New_failure_sample :
  Resource (applyOptions [WithResource (Some Sample.res)] zeroOthell) <> None
  /\ exists o' p' tp,
       New Sample.newHandler Sample.noReader "checkout" [WithResource (Some Sample.res)]
         (loaded tt)
       = ((Some o', Some (joinError [errorString "unknown metrics exporter"])), p')
       /\ TraceProvider
            (snd (fst (initTracer Sample.noReader
                         (applyOptions [WithResource (Some Sample.res)] zeroOthell)
                         (loaded tt)))) = Some tp
       /\ TraceProvider o' = Some tp
       /\ otel.TracerProvider (otelGlobals p') = Some tp
       /\ otel.TextMapPropagator (otelGlobals p') = ["tracecontext"; "baggage"].
Proof.
  split; [discriminate |].
  apply (New_failure_after_initTracer_keeps_provider unit Sample.newHandler
           Sample.noReader "checkout" [WithResource (Some Sample.res)] (loaded tt)
           _
           (snd (initTracer Sample.noReader
                   (applyOptions [WithResource (Some Sample.res)] zeroOthell) (loaded tt)))).
  - discriminate.
  - reflexivity.
  - left. eexists. eexists. reflexivity.
Defined.

Lemma projectID_sample :
  (metadata_OnGCE Sample.flakyGCE = false
   \/ exists err, metadata_ProjectIDWithContext Sample.flakyGCE = Err err)
  /\ projectID
       (fst (run Sample.record Sample.newHandler Sample.doubling
               [ CallNew Sample.laptop "checkout" [WithResource (Some Sample.res)];
                 CallLog Sample.inSpan Sample.hello;
                 CallNew Sample.laptop "billing" [WithResource (Some Sample.res)] ]
               (init Sample.flakyGCE (loaded tt), ([], []))))
     = "non-gcp"
  /\ metadataLog
       (fst (run Sample.record Sample.newHandler Sample.doubling
               [ CallNew Sample.laptop "checkout" [WithResource (Some Sample.res)];
                 CallLog Sample.inSpan Sample.hello;
                 CallNew Sample.laptop "billing" [WithResource (Some Sample.res)] ]
               (init Sample.flakyGCE (loaded tt), ([], []))))
     = [metadata.OnGCE; metadata.ProjectIDWithContext].
Proof.
  assert (metadata_OnGCE Sample.flakyGCE = false
          \/ exists err, metadata_ProjectIDWithContext Sample.flakyGCE = Err err) as Hfail.
  { right. eexists. reflexivity. }
  destruct (projectID_resolved_once_then_cached _ _ Sample.record Sample.newHandler
              Sample.doubling Sample.flakyGCE tt
              [ CallNew Sample.laptop "checkout" [WithResource (Some Sample.res)];
                CallLog Sample.inSpan Sample.hello;
                CallNew Sample.laptop "billing" [WithResource (Some Sample.res)] ] ([], []))
    as (_ & Hid & Hlog & Hfallback & _).
  split; [exact Hfail |]. split.
  - exact (eq_trans Hid (Hfallback Hfail)).
  - exact (eq_trans Hlog eq_refl).
Defined.

Lemma New_success_sample :
  snd (fst (New Sample.newHandler Sample.laptop "checkout" [WithResource (Some Sample.res)]
              (loaded tt))) = None
  /\ exists o,
       fst (fst (New Sample.newHandler Sample.laptop "checkout"
                   [WithResource (Some Sample.res)] (loaded tt))) = Some o
       /\ option_map otel.tracerName (Tracer o) = Some "checkout-tracer"
       /\ option_map otel.meterName (Meter o) = Some "checkout-meter".
Proof.
  split; [reflexivity |].
  destruct (New_success_names_tracer_and_meter unit Sample.newHandler Sample.laptop
              "checkout" [WithResource (Some Sample.res)] (loaded tt) _ _ eq_refl)
    as (o & Ho & Ht & Hm & _).
  exists o. rewrite Ht, Hm. now repeat split.
Defined.

(** C8, as the claim words it, fails: swapping two options that write the
    endpoint changes the struct. *)
Lemma applyOptions_order_matters :
  Permutation [CollectorEndpointSetting "a"; CollectorEndpointSetting "b"]
              [CollectorEndpointSetting "b"; CollectorEndpointSetting "a"]
  /\ applyOptions
       (map toOption [CollectorEndpointSetting "a"; CollectorEndpointSetting "b"]) zeroOthell
     <> applyOptions
          (map toOption [CollectorEndpointSetting "b"; CollectorEndpointSetting "a"]) zeroOthell.
Proof.
  split; [apply perm_swap | discriminate].
Qed.

Lemma applyOptions_order_sample :
  Permutation [DebugTracerSetting; CollectorEndpointSetting "a"; ResourceSetting None]
              [CollectorEndpointSetting "a"; DebugTracerSetting; ResourceSetting None]
  /\ writesAgree [DebugTracerSetting; CollectorEndpointSetting "a"; ResourceSetting None]
  /\ applyOptions
       (map toOption [CollectorEndpointSetting "a"; DebugTracerSetting; ResourceSetting None])
       zeroOthell
     = applyOptions
         (map toOption [DebugTracerSetting; CollectorEndpointSetting "a"; ResourceSetting None])
         zeroOthell
  /\ CollectorEndpoint
       (applyOptions
          (map toOption [CollectorEndpointSetting "a"; CollectorEndpointSetting "b"])
          zeroOthell) = "b".
Proof.
  assert (writesAgree [DebugTracerSetting; CollectorEndpointSetting "a"; ResourceSetting None])
    as Hag.
  { intros a b [<- | [<- | [<- | []]]] [<- | [<- | [<- | []]]]; cbn; intros H;
      try reflexivity; discriminate H. }
  split; [apply perm_swap |]. split; [exact Hag |]. split.
  - apply (proj1 (applyOptions_order _ _ zeroOthell)); [apply perm_swap | exact Hag].
  - apply (proj1 (proj2 (applyOptions_order
                           [CollectorEndpointSetting "a"; CollectorEndpointSetting "b"]
                           [] zeroOthell))
             [CollectorEndpointSetting "a"] [] "b"); reflexivity.
Defined.

Lemma CollectorEndpoint_sample :
  filter notCollectorEndpointSetting
    [ResourceSetting (Some Sample.res); CollectorEndpointSetting "collector:4317"]
  = filter notCollectorEndpointSetting [ResourceSetting (Some Sample.res)]
  /\ snd (New Sample.newHandler Sample.laptop "checkout"
            (map toOption
               [ResourceSetting (Some Sample.res); CollectorEndpointSetting "collector:4317"])
            (loaded tt))
     = snd (New Sample.newHandler Sample.laptop "checkout"
              (map toOption [ResourceSetting (Some Sample.res)]) (loaded tt)).
Proof.
  split; [reflexivity |].
  apply (CollectorEndpoint_is_only_stored unit Sample.newHandler Sample.laptop "checkout"
           [ResourceSetting (Some Sample.res); CollectorEndpointSetting "collector:4317"]
           [ResourceSetting (Some Sample.res)] (loaded tt) eq_refl).
Defined.

Lemma New_tracer_failure_sample :
  Resource (applyOptions [WithResource (Some Sample.res); WithDebugTracer] zeroOthell) <> None
  /\ New Sample.newHandler Sample.noConsole "checkout"
       [WithResource (Some Sample.res); WithDebugTracer] (loaded tt)
     = ((Some (WithDebugTracer (WithResource (Some Sample.res) zeroOthell)),
         Some (wrapError "failed to create console exporter: %w"
                 (errorString "stdout: closed"))),
        {| projectID := "";
           otelGlobals := {| otel.TextMapPropagator := ["tracecontext"; "baggage"];
                             otel.TracerProvider := None; otel.MeterProvider := None |};
           slogDefault := {| handler := external tt |};
           metadataLog := [] |}).
Proof.
  split; [discriminate |].
  apply (New_tracer_failure unit Sample.newHandler Sample.noConsole "checkout"
           [WithResource (Some Sample.res); WithDebugTracer] (loaded tt)
           (errorString "stdout: closed")).
  - discriminate.
  - right. split; [eexists; reflexivity |]. now repeat split.
Defined.

Lemma New_meter_failure_sample :
  autoexport_NewMetricReader Sample.noReader = Err (errorString "unknown metrics exporter")
  /\ snd (fst (New Sample.newHandler Sample.noReader "checkout"
                 [WithResource (Some Sample.res)] (loaded tt)))
     = Some (joinError [errorString "unknown metrics exporter"])
  /\ slogDefault (snd (New Sample.newHandler Sample.noReader "checkout"
                         [WithResource (Some Sample.res)] (loaded tt)))
     = {| handler := external tt |}.
Proof.
  split; [reflexivity |].
  destruct (New_meter_failure unit Sample.newHandler Sample.noReader "checkout"
              [WithResource (Some Sample.res)] (loaded tt) _ _
              (errorString "unknown metrics exporter")
              ltac:(discriminate) eq_refl eq_refl)
    as (HN & _ & Hlog & _).
  rewrite HN. cbn [fst snd]. split; [reflexivity |]. rewrite Hlog. reflexivity.
Defined.

Lemma New_success_providers_sample :
  snd (fst (New Sample.newHandler Sample.laptop "checkout" [WithResource (Some Sample.res)]
              (loaded tt))) = None
  /\ exists o tp mp,
       fst (fst (New Sample.newHandler Sample.laptop "checkout"
                   [WithResource (Some Sample.res)] (loaded tt))) = Some o
       /\ TraceProvider o = Some tp
       /\ sdktrace.sampler tp = sdktrace.AlwaysSample
       /\ sdktrace.res tp = resource.MergeEnvironment (Some Sample.res)
       /\ MeterProvider o = Some mp
       /\ sdkmetric.readers mp = [sdkmetric.detected "otlp"]
       /\ sdkmetric.res mp = resource.MergeEnvironment (Some Sample.res)
       /\ Resource o = Some Sample.res.
Proof.
  split; [reflexivity |].
  destruct (New_success_providers unit Sample.newHandler Sample.laptop "checkout"
              [WithResource (Some Sample.res)] (loaded tt) _ _ eq_refl)
    as (tp & mp & m & Hm & Htp & Hs & Hr & Hmp & Hrd & Hmr & _ & _ & Hres & _).
  eexists. exists tp, mp. split; [reflexivity |].
  injection Hm as <-. now repeat split.
Defined.

Lemma New_then_log_sample :
  slog.wfRecord (snd Sample.crowded) (fst Sample.crowded)
  /\ slog.unwritten (snd Sample.crowded) (slog.back (fst Sample.crowded))
  /\ exists record' heap',
       Handle Sample.record Sample.doubling
         (snd (New Sample.newHandler Sample.laptop "checkout" [WithResource (Some Sample.res)]
                 (init Sample.laptop (loaded tt))))
         (handler
            (slogDefault
               (snd (New Sample.newHandler Sample.laptop "checkout"
                       [WithResource (Some Sample.res)] (init Sample.laptop (loaded tt))))))
         Sample.inSpan (fst Sample.crowded) (snd Sample.crowded, [])
       = Sample.record tt Sample.inSpan record' (heap', [])
       /\ slog.Message record' = "crowded"
       /\ slog.Attrs heap' record'
          = (Sample.eight
               ++ [ {| slog.Key := "logging.googleapis.com/trace";
                       slog.Val := slog.StringValue
                         "projects/non-gcp/traces/4bf92f3577b34da6a3ce929d0e0e4736" |};
                    {| slog.Key := "logging.googleapis.com/spanId";
                       slog.Val := slog.KindAny (slog.any_SpanID Sample.sid) |};
                    {| slog.Key := "logging.googleapis.com/trace_sampled";
                       slog.Val := slog.BoolValue true |} ])%list.
Proof.
  assert (slog.wfRecord (snd Sample.crowded) (fst Sample.crowded)) as Hwf.
  { repeat split; vm_compute; lia. }
  assert (slog.unwritten (snd Sample.crowded) (slog.back (fst Sample.crowded))) as Hun.
  { intros i Hlo Hhi. vm_compute in Hlo, Hhi.
    assert (i = 3) as -> by lia. reflexivity. }
  split; [exact Hwf |]. split; [exact Hun |].
  destruct (New_then_log _ _ Sample.record Sample.newHandler Sample.doubling Sample.laptop
              "checkout" [WithResource (Some Sample.res)] (init Sample.laptop (loaded tt))
              _ _ Sample.inSpan (fst Sample.crowded) (snd Sample.crowded) [] eq_refl Hwf Hun)
    as (record' & heap' & HH & _ & HM & _ & _ & HA & _).
  exists record', heap'. split; [exact HH |]. split; [exact HM |]. exact HA.
Defined.

Lemma replacer_idempotent_sample :
  replacer [] {| slog.Key := "level"; slog.Val := slog.KindAny (slog.any_Level 4%Z) |}
  = Return {| slog.Key := "severity"; slog.Val := slog.StringValue "WARNING" |}
  /\ replacer ["request"]
       {| slog.Key := "severity"; slog.Val := slog.StringValue "WARNING" |}
     = Return {| slog.Key := "severity"; slog.Val := slog.StringValue "WARNING" |}.
Proof.
  split; [reflexivity |].
  apply (replacer_idempotent [] ["request"]
           {| slog.Key := "level"; slog.Val := slog.KindAny (slog.any_Level 4%Z) |}).
  reflexivity.
Defined.

Lemma Handle_without_usable_span_sample :
  trace.allZero (trace.spanID Sample.noSpanID) = true
  /\ Handle Sample.record Sample.doubling (init Sample.laptop (loaded tt))
       (spanContextLogHandler (external tt))
       {| context.currentSpan := Some Sample.noSpanID |} Sample.hello ([], [])
     = (None,
        ([], [({| context.currentSpan := Some Sample.noSpanID |}, "hello",
               [slog.Bool "ok" true])])).
Proof.
  split; [reflexivity |].
  rewrite (Handle_without_usable_span _ _ Sample.record Sample.doubling
             (init Sample.laptop (loaded tt)) (external tt)
             {| context.currentSpan := Some Sample.noSpanID |} Sample.hello ([], [])).
  - reflexivity.
  - right. exists Sample.noSpanID. split; [reflexivity | right; reflexivity].
Defined.

Lemma Handle_appends_three_sample :
  slog.wfRecord [] Sample.hello
  /\ slog.unwritten [] (slog.back Sample.hello)
  /\ trace.IsValid (SpanContextFromContext Sample.inSpan) = true
  /\ exists record' heap',
       Handle Sample.record Sample.doubling (init Sample.laptop (loaded tt))
         (spanContextLogHandler (external tt)) Sample.inSpan Sample.hello ([], [])
       = Sample.record tt Sample.inSpan record' (heap', [])
       /\ slog.Message record' = "hello"
       /\ slog.Attrs heap' record'
          = [ slog.Bool "ok" true;
              {| slog.Key := "logging.googleapis.com/trace";
                 slog.Val := slog.StringValue
                   "projects/non-gcp/traces/4bf92f3577b34da6a3ce929d0e0e4736" |};
              {| slog.Key := "logging.googleapis.com/spanId";
                 slog.Val := slog.KindAny (slog.any_SpanID Sample.sid) |};
              {| slog.Key := "logging.googleapis.com/trace_sampled";
                 slog.Val := slog.BoolValue true |} ].
Proof.
  assert (slog.wfRecord [] Sample.hello) as Hwf.
  { repeat split; vm_compute; lia. }
  assert (slog.unwritten [] (slog.back Sample.hello)) as Hun.
  { intros i Hlo Hhi. vm_compute in Hhi. lia. }
  split; [exact Hwf |]. split; [exact Hun |]. split; [reflexivity |].
  destruct (Handle_appends_three_to_unshared_record _ _ Sample.record Sample.doubling
              (init Sample.laptop (loaded tt)) (external tt) Sample.inSpan Sample.hello
              [] [] Hwf Hun eq_refl)
    as (record' & heap' & HH & _ & HM & _ & _ & HA).
  exists record', heap'. split; [exact HH |]. split; [exact HM |]. exact HA.
Defined.
